(** * pilote-app: the derived scoring engine, the fog classification,
      the log operations and the local-storage hook of [src/App.jsx]

    The application is a single TypeScript/React file.  Its [number]s are
    IEEE 754 binary64 values, modelled here by Rocq's primitive [float]
    (same format, same round-to-nearest-even operations); its strings are
    sequences of UTF-16 code units; array and string lengths are natural
    numbers that are injected into [float] where the code does arithmetic
    on them. *)

From Stdlib Require Import ZArith NArith PArith Bool List Lia QArith.
From Stdlib Require Import Ascii String DecimalString.
From Stdlib Require Import Uint63 Floats.
Import ListNotations.

Set Warnings "-inexact-float".

(* ------------------------------------------------------------------ *)
(** * JavaScript strings *)
(* ------------------------------------------------------------------ *)

Module JsString.

(** A string value is a finite sequence of 16-bit code units. *)
Definition code_unit := N.
Definition t := list code_unit.

(** ASCII literals, for readable constants. *)
Fixpoint of_string (s : string) : t :=
  match s with
  | EmptyString => []
  | String c s' => N_of_ascii c :: of_string s'
  end.

(** [s.length] *)
Definition length (s : t) : nat := List.length s.

(** ECMAScript [WhiteSpace] and [LineTerminator] code points, the ones
    [String.prototype.trim] strips. *)
Definition is_white_space (c : code_unit) : bool :=
  ((9 <=? c) && (c <=? 13)            (* TAB LF VT FF CR *)
   || (c =? 32)                       (* SP *)
   || (c =? 160)                      (* NBSP *)
   || (c =? 5760)                     (* U+1680 *)
   || ((8192 <=? c) && (c <=? 8202))  (* U+2000 .. U+200A *)
   || (c =? 8232) || (c =? 8233)      (* LS, PS *)
   || (c =? 8239) || (c =? 8287)      (* U+202F, U+205F *)
   || (c =? 12288)                    (* U+3000 *)
   || (c =? 65279))%N.                (* ZWNBSP / BOM *)

Fixpoint trimStart (s : t) : t :=
  match s with
  | [] => []
  | c :: s' => if is_white_space c then trimStart s' else s
  end.

Definition trimEnd (s : t) : t := rev (trimStart (rev s)).

(** [s.trim()] *)
Definition trim (s : t) : t := trimEnd (trimStart s).

(** [ToBoolean] on a string: only the empty string is falsy. *)
Definition truthy (s : t) : bool :=
  match s with [] => false | _ :: _ => true end.

(** [s.charAt(0)]: the first code unit as a string, or the empty string. *)
Definition charAt0 (s : t) : t :=
  match s with [] => [] | c :: _ => [c] end.

(** [s.slice(1)] *)
Definition slice1 (s : t) : t := List.tl s.

(** [s.replace(".", "")] with a string pattern: only the first
    occurrence of the one-unit pattern is removed. *)
Fixpoint remove_first (p : code_unit) (s : t) : t :=
  match s with
  | [] => []
  | c :: s' => if (c =? p)%N then s' else c :: remove_first p s'
  end.

End JsString.

Abbreviation js_string := JsString.t.
Definition str (s : string) : js_string := JsString.of_string s.
Arguments str s%_string.

(* ------------------------------------------------------------------ *)
(** * JavaScript numbers *)
(* ------------------------------------------------------------------ *)

Module JsNumber.

Open Scope float_scope.

(** The number an integer stands for.  Exact for the integers the
    application handles (slider positions, lengths), which are far below
    [2^53]. *)
Definition of_Z (z : Z) : float :=
  match z with
  | Zneg _ => - of_uint63 (Uint63.of_Z (Z.opp z))
  | _ => of_uint63 (Uint63.of_Z z)
  end.

Definition of_nat (n : nat) : float := of_Z (Z.of_nat n).

(** [Math.min(x, y)] (ECMA-262, 21.3.2.25 at two arguments): [NaN] if
    either argument is [NaN]; [-0] is below [+0]; otherwise the smaller. *)
Definition is_neg_zero (x : float) : bool := PrimFloat.is_zero x && get_sign x.
Definition is_pos_zero (x : float) : bool := PrimFloat.is_zero x && negb (get_sign x).

Definition Math_min (x y : float) : float :=
  if is_nan x || is_nan y then nan
  else
    let lowest := x in
    let lowest := if is_neg_zero y && is_pos_zero lowest then y else lowest in
    if y <? lowest then y else lowest.

(** The exact rational value of a finite number. *)
Definition to_Q (x : float) : option Q :=
  match Prim2SF x with
  | S754_zero _ => Some 0%Q
  | S754_finite s m e =>
      let v := match e with
               | Zneg k => Qmake (Zpos m) (2 ^ k)
               | _ => inject_Z (Zpos m * 2 ^ e)
               end in
      Some (if s then Qopp v else v)
  | _ => None
  end.

End JsNumber.

Import JsNumber.
Open Scope float_scope.

(* ------------------------------------------------------------------ *)
(** * Types and interfaces *)
(* ------------------------------------------------------------------ *)

Record RadarState := mkRadar {
  inner : float;
  peers : float;
  family : float;
  media : float;
  professors : float;
  fog : float
}.

Record GoalState := mkGoal {
  title : js_string;
  date : js_string;
  carb_cognitive : js_string;
  carb_physical : js_string;
  carb_recovery : js_string
}.

Record LogEntry := mkLogEntry {
  id : Z;
  log_date : js_string;
  domain : js_string
}.

Record CrisisState := mkCrisis {
  supportPerson : js_string;
  booster : js_string
}.

(** The value a range input with [min=0], [max=100] hands to its handler:
    [parseInt(e.target.value)] at slider position [n]. *)
Definition slider (n : Z) : float := of_Z n.

Definition radar_of_sliders (i p f m pr fg : Z) : RadarState :=
  mkRadar (slider i) (slider p) (slider f) (slider m) (slider pr) (slider fg).

(* ------------------------------------------------------------------ *)
(** * Page 1: fog classification ([analyzeSignal]) *)
(* ------------------------------------------------------------------ *)

(** The three values of the [status] field. *)
Inductive Status := OPTIMAL | INTERMEDIAIRE | CRITIQUE.

(** The text displayed for a status; 201 is the code unit of E-acute. *)
Definition status_text (s : Status) : js_string :=
  match s with
  | OPTIMAL => str "OPTIMAL"
  | INTERMEDIAIRE => str "INTERM" ++ [201%N] ++ str "DIAIRE"
  | CRITIQUE => str "CRITIQUE"
  end.

Record Analysis := mkAnalysis {
  status : Status;
  color : js_string;
  borderColor : js_string;
  msg : js_string
}.

(** The messages; 233 and 234 are the code units of e-acute and
    e-circumflex. *)
Definition msg_optimal : js_string :=
  str "Visibilit" ++ [233%N] ++ str " excellente. Conditions de vol id"
  ++ [233%N] ++ str "ales.".
Definition msg_intermediaire : js_string :=
  str "Visibilit" ++ [233%N] ++ str " r" ++ [233%N]
  ++ str "duite. Soyez vigilant aux interf" ++ [233%N] ++ str "rences.".
Definition msg_critique : js_string :=
  str "Visibilit" ++ [233%N] ++ str " nulle. Arr" ++ [234%N] ++ str "t imm"
  ++ [233%N] ++ str "diat conseill" ++ [233%N] ++ str ".".

Definition analyzeSignal (data : RadarState) : Analysis :=
  if fog data <=? 30 then
    mkAnalysis OPTIMAL (str "text-emerald-400") (str "border-emerald-500")
      msg_optimal
  else if fog data <=? 70 then
    mkAnalysis INTERMEDIAIRE (str "text-orange-400") (str "border-orange-500")
      msg_intermediaire
  else
    mkAnalysis CRITIQUE (str "text-red-500") (str "border-red-500")
      msg_critique.

(* ------------------------------------------------------------------ *)
(** * Page 4: the mastery / impact matrix ([PageMission]) *)
(* ------------------------------------------------------------------ *)

Definition externalNoise (radar : RadarState) : float :=
  (peers radar + media radar + family radar + professors radar) / 4.

Definition masteryScore (radar : RadarState) : float :=
  ((inner radar * 0.5)
   + ((100 - fog radar) * 0.3)
   + ((100 - externalNoise radar) * 0.2)) / 10.

Definition carbCount (goal : GoalState) : nat :=
  List.length
    (filter (fun c => (2 <? JsString.length c)%nat)
            [carb_cognitive goal; carb_physical goal; carb_recovery goal]).

Definition goalSet (goal : GoalState) : float :=
  if (2 <? JsString.length (title goal))%nat then 1 else 0.

Definition impactScore (goal : GoalState) (logCount : float) : float :=
  ((of_nat (carbCount goal) / 3) * 10 * 0.4)
  + (goalSet goal * 10 * 0.2)
  + (Math_min logCount 10 / 10 * 10 * 0.4).

Record Point := mkPoint { x : float; y : float }.

Definition calculateMatrix (radar : RadarState) (goal : GoalState)
    (logCount : float) : Point :=
  mkPoint (masteryScore radar) (impactScore goal logCount).

(** The "Autorisation de Vol Validée" banner is rendered exactly when
    [x > 7 && y > 7]. *)
Definition authorization (p : Point) : bool := (7 <? x p) && (7 <? y p).

Definition PageMission_authorized (radar : RadarState) (goal : GoalState)
    (logCount : float) : bool :=
  authorization (calculateMatrix radar goal logCount).


(* ------------------------------------------------------------------ *)
(** * Effects: exceptions, [try]/[catch] and mutable state *)
(* ------------------------------------------------------------------ *)

Inductive js_error :=
  | SyntaxError          (* JSON.parse on malformed text *)
  | TypeError            (* JSON.stringify on an unserialisable value *)
  | SecurityError        (* storage access denied *)
  | QuotaExceededError.  (* storage full *)

Inductive completion (A : Type) :=
  | Normal (a : A)
  | Throw (e : js_error).
Arguments Normal {A} a.
Arguments Throw {A} e.

(** A statement run on a state [S]: it completes normally or abruptly, and
    in both cases leaves a state behind. *)
Definition Eff (S A : Type) : Type := S -> completion A * S.

Definition ret {S A} (a : A) : Eff S A := fun s => (Normal a, s).

Definition bind {S A B} (m : Eff S A) (k : A -> Eff S B) : Eff S B :=
  fun s =>
    match m s with
    | (Normal a, s') => k a s'
    | (Throw e, s') => (Throw e, s')
    end.

Definition complete {S A} (c : completion A) : Eff S A := fun s => (c, s).

Definition get {S} : Eff S S := fun s => (Normal s, s).

Definition modify {S} (f : S -> S) : Eff S unit := fun s => (Normal tt, f s).

(** [try { m } catch (error) { h error }]: the state changes made before
    the exception are kept. *)
Definition try_catch {S A} (m : Eff S A) (h : js_error -> Eff S A) : Eff S A :=
  fun s =>
    match m s with
    | (Normal a, s') => (Normal a, s')
    | (Throw e, s') => h e s'
    end.

Declare Scope eff_scope.
Delimit Scope eff_scope with eff.
Notation "x <- m ;; k" := (bind m (fun x => k))
  (at level 61, m at next level, right associativity) : eff_scope.
Notation "m ;; k" := (bind m (fun _ => k))
  (at level 61, right associativity) : eff_scope.
Open Scope eff_scope.

(* ------------------------------------------------------------------ *)
(** * The host: [window.localStorage], [JSON], [console], string case *)
(* ------------------------------------------------------------------ *)

(** What the browser provides and the application only calls. *)
Class Host := {
  Storage : Type;
  (** [getItem] answers [null] ([None]) on a missing key *)
  getItem : Storage -> js_string -> completion (option js_string);
  setItem : Storage -> js_string -> js_string -> completion Storage;
  toLowerCase : js_string -> js_string;
  toUpperCase : js_string -> js_string
}.

(** [JSON.parse] and [JSON.stringify] at the type of one slice. *)
Class Json (T : Type) := {
  JSON_parse : js_string -> completion T;
  JSON_stringify : T -> completion js_string
}.

Record Window `{Host} := mkWindow {
  localStorage : Storage;
  console : list js_error
}.

Section UseLocalStorage.
Context `{Host} {T : Type} `{Json T}.

(** The state of one [useLocalStorage] hook: the React state cell and the
    browser window it writes through to. *)
Record Hook := mkHook {
  storedValue : T;
  window : Window
}.

Definition localStorage_getItem (key : js_string) : Eff Window (option js_string) :=
  fun w => (getItem (localStorage w) key, w).

Definition localStorage_setItem (key item : js_string) : Eff Window unit :=
  fun w =>
    match setItem (localStorage w) key item with
    | Normal st => (Normal tt, mkWindow _ st (console w))
    | Throw e => (Throw e, w)
    end.

Definition console_error (error : js_error) : Eff Window unit :=
  modify (fun w => mkWindow _ (localStorage w) (console w ++ [error])).

(** The lazy initialiser handed to [useState]. *)
Definition initialState (key : js_string) (initialValue : T) : Eff Window T :=
  try_catch
    (item <- localStorage_getItem key ;;
     match item with
     | Some text =>
         if JsString.truthy text then complete (JSON_parse text)
         else ret initialValue
     | None => ret initialValue
     end)
    (fun error => console_error error ;; ret initialValue).

(** [setValue] accepts a value or an updater function. *)
Inductive SetStateAction :=
  | Value (v : T)
  | Updater (f : T -> T).

Definition in_window {A} (m : Eff Window A) : Eff Hook A :=
  fun h =>
    let '(c, w) := m (window h) in (c, mkHook (storedValue h) w).

Definition setStoredValue (v : T) : Eff Hook unit :=
  modify (fun h => mkHook v (window h)).

(** [value instanceof Function ? value(storedValue) : value] *)
Definition valueToStore (value : SetStateAction) (h : Hook) : T :=
  match value with
  | Updater f => f (storedValue h)
  | Value v => v
  end.

Definition setValue (key : js_string) (value : SetStateAction) : Eff Hook unit :=
  try_catch
    (h <- get ;;
     let v := valueToStore value h in
     setStoredValue v ;;
     text <- complete (JSON_stringify v) ;;
     in_window (localStorage_setItem key text))
    (fun error => in_window (console_error error)).

End UseLocalStorage.

Arguments Hook {_} T.
Arguments SetStateAction T : clear implicits.

(* ------------------------------------------------------------------ *)
(** * Page 3 and the application shell: the +1% log *)
(* ------------------------------------------------------------------ *)

(** What [new Date()] and [Date.now()] answer at the moment of a click. *)
Record Clock := mkClock {
  Date_now : Z;                   (* Date.now() *)
  weekday_short : js_string;      (* toLocaleDateString('fr-FR', { weekday: 'short' }) *)
  getDate : Z                     (* day of the month *)
}.

(** What the user answers to [window.confirm]. *)
Definition Confirm := bool.

Definition number_toString (z : Z) : js_string :=
  str (DecimalString.NilZero.string_of_int (Z.to_int z)).

Definition pilot_logs : js_string := str "pilot_logs".

Section Logs.
Context `{Host} `{Json (list LogEntry)}.

(** The part of the component tree the log handlers touch: the
    [plusOneLogs] hook of [App] and the [newLog] text field of
    [PageCockpit]. *)
Record Cockpit := mkCockpit {
  plusOneLogs : Hook (list LogEntry);
  newLog : js_string
}.

Definition logs (c : Cockpit) : list LogEntry := storedValue (plusOneLogs c).

Definition setPlusOneLogs (value : SetStateAction (list LogEntry)) (c : Cockpit) : Cockpit :=
  mkCockpit (snd (setValue pilot_logs value (plusOneLogs c))) (newLog c).

Definition setNewLog (text : js_string) (c : Cockpit) : Cockpit :=
  mkCockpit (plusOneLogs c) text.

Definition formattedDate (now : Clock) : js_string :=
  let dayName := weekday_short now in
  let dayNum := getDate now in
  let cleanDayName := toLowerCase (JsString.remove_first 46%N dayName) in
  let cleanDayName :=
    toUpperCase (JsString.charAt0 cleanDayName) ++ JsString.slice1 cleanDayName in
  cleanDayName ++ str " " ++ number_toString dayNum.

Definition addPlusOneLog (now : Clock) (domain : js_string) (c : Cockpit) : Cockpit :=
  let newEntry := mkLogEntry (Date_now now) (formattedDate now) domain in
  setPlusOneLogs (Updater (fun prev => prev ++ [newEntry])) c.

Definition handleAddLog (now : Clock) (c : Cockpit) : Cockpit :=
  if JsString.truthy (JsString.trim (newLog c)) then
    setNewLog [] (addPlusOneLog now (newLog c) c)
  else c.

Definition clearLogs (answer : Confirm) (c : Cockpit) : Cockpit :=
  if answer then setPlusOneLogs (Value []) c else c.

End Logs.

(* ------------------------------------------------------------------ *)
(** * The formulas of the specification *)
(* ------------------------------------------------------------------ *)

Module Spec.

(** Arithmetic mean of a non-empty list of numbers; [0/0] on the empty
    list, as in JavaScript. *)
Definition mean (l : list float) : float :=
  match l with
  | [] => 0 / 0
  | v :: l' => fold_left add l' v / of_nat (List.length l)
  end.

Definition externalNoise (r : RadarState) : float :=
  mean [peers r; media r; family r; professors r].

Definition masteryScore (r : RadarState) : float :=
  (inner r * 0.5 + (100 - fog r) * 0.3 + (100 - externalNoise r) * 0.2) / 10.

Definition indicator (b : bool) : nat := if b then 1 else 0.

(** "count of the three anchors whose trimmed length > 2" *)
Definition carbCount_trimmed (g : GoalState) : nat :=
  indicator (2 <? JsString.length (JsString.trim (carb_cognitive g)))%nat
  + indicator (2 <? JsString.length (JsString.trim (carb_physical g)))%nat
  + indicator (2 <? JsString.length (JsString.trim (carb_recovery g)))%nat.

(** The same count on the lengths as they are stored. *)
Definition carbCount_raw (g : GoalState) : nat :=
  indicator (2 <? JsString.length (carb_cognitive g))%nat
  + indicator (2 <? JsString.length (carb_physical g))%nat
  + indicator (2 <? JsString.length (carb_recovery g))%nat.

Definition goalSet (g : GoalState) : nat :=
  indicator (2 <? JsString.length (title g))%nat.

Definition impactScore_with (count : GoalState -> nat) (g : GoalState)
    (logCount : float) : float :=
  (of_nat (count g) / 3) * 10 * 0.4
  + of_nat (goalSet g) * 10 * 0.2
  + (Math_min logCount 10 / 10) * 10 * 0.4.

(** The three bands of the fog classification. *)
Definition optimal (fog : float) : bool := fog <=? 30.
Definition intermediate (fog : float) : bool := (30 <? fog) && (fog <=? 70).
Definition critical (fog : float) : bool := 70 <? fog.

End Spec.

(** The log-count term of the impact score. *)
Definition logTerm (logCount : float) : float :=
  Math_min logCount 10 / 10 * 10 * 0.4.

(** Membership in the closed interval [[0,10]] of the score scale. *)
Definition on_scale (v : float) : bool := (0 <=? v) && (v <=? 10).

(** A goal with a title and all three anchors filled in. *)
Definition full_goal : GoalState :=
  mkGoal (str "Marathon") (str "15 Mai") (str "Lecture") (str "20 Pompes") (str "Sieste").

(* ------------------------------------------------------------------ *)
(** * Exhaustive checks over slider positions *)
(* ------------------------------------------------------------------ *)

Module Exhaust.

Definition next (v : float) : float := v + 1.

(** The number reached from [0] after [k] increments. *)
Definition counter (k : nat) : float := Nat.iter k next 0.

(** [P] holds at [v], [v+1], ..., [v+(n-1)]. *)
Fixpoint all_from (n : nat) (v : float) (P : float -> bool) : bool :=
  match n with
  | O => true
  | S k => if P v then all_from k (next v) P else false
  end.

(** The same with the position carried along. *)
Fixpoint all_from_idx (n k : nat) (v : float) (P : nat -> float -> bool) : bool :=
  match n with
  | O => true
  | S n' => if P k v then all_from_idx n' (S k) (next v) P else false
  end.

(** The mastery formula at an inner-voice position, a fog position and
    the sum of the four external sliders. *)
Definition mastery_at (i fg s : float) : float :=
  ((i * 0.5) + ((100 - fg) * 0.3) + ((100 - s / 4) * 0.2)) / 10.

(** The mastery score is on the scale: for every sum at given inner-voice
    and fog positions, for every fog position, for every position. *)
Definition mastery_sums (i fg : float) : bool :=
  all_from 401 0 (fun s => on_scale (mastery_at i fg s)).
Definition mastery_fogs (i : float) : bool := all_from 101 0 (mastery_sums i).

(** Adding a slider position to a sum of up to three positions never
    rounds. *)
Definition sum_row (a : nat) (va : float) : bool :=
  all_from_idx 101 0 0 (fun b vb => Leibniz.eqb (va + vb) (counter (a + b))).

(** A quarter of a slider sum is the exact rational quarter. *)
Definition quarter_at (s : nat) (vs : float) : bool :=
  match to_Q (vs / 4) with
  | Some q => Qeq_bool q (Z.of_nat s # 4)
  | None => false
  end.

Definition conversion_at (k : nat) (v : float) : bool := Leibniz.eqb (of_nat k) v.

(** Every impact score reachable with a log count of at most ten. *)
Definition impact_at (carbs : nat) (goal : float) (lc : float) : float :=
  ((of_nat carbs / 3) * 10 * 0.4) + (goal * 10 * 0.2) + (lc / 10 * 10 * 0.4).

Definition impact_counts (carbs : nat) (goal : float) : bool :=
  all_from 11 0 (fun lc => on_scale (impact_at carbs goal lc)).

(** Below ten, [Math.min] against ten is the identity. *)
Definition small_min (lc : float) : bool := Leibniz.eqb (Math_min lc 10) lc.

End Exhaust.

(* ------------------------------------------------------------------ *)
(** * A concrete host, to run the application on *)
(* ------------------------------------------------------------------ *)

Module TestHost.

Fixpoint list_eqb (a b : js_string) : bool :=
  match a, b with
  | [], [] => true
  | c :: a', d :: b' => (c =? d)%N && list_eqb a' b'
  | _, _ => false
  end.

Fixpoint lookup (st : list (js_string * js_string)) (key : js_string) : option js_string :=
  match st with
  | [] => None
  | (k, v) :: st' => if list_eqb k key then Some v else lookup st' key
  end.

Definition ascii_map (f : ascii -> ascii) (s : js_string) : js_string :=
  map (fun c => if (c <? 128)%N then N_of_ascii (f (ascii_of_N c)) else c) s.

Definition lower (a : ascii) : ascii :=
  let n := nat_of_ascii a in
  if ((65 <=? n) && (n <=? 90))%nat then ascii_of_nat (n + 32) else a.

Definition upper (a : ascii) : ascii :=
  let n := nat_of_ascii a in
  if ((97 <=? n) && (n <=? 122))%nat then ascii_of_nat (n - 32) else a.

(** An in-memory store that never fails, and ASCII case mapping. *)
#[export] Instance host : Host := {|
  Storage := list (js_string * js_string);
  getItem st key := Normal (lookup st key);
  setItem st key item := Normal ((key, item) :: st);
  toLowerCase := ascii_map lower;
  toUpperCase := ascii_map upper
|}.

(** A serialiser for the log slice that only knows the empty array. *)
#[export] Instance json_logs : Json (list LogEntry) := {|
  JSON_parse text := if list_eqb text (str "[]") then Normal [] else Throw SyntaxError;
  JSON_stringify v := match v with [] => Normal (str "[]") | _ => Normal (str "[...]") end
|}.

Definition empty_window : Window := mkWindow _ [] [].

Definition lundi : Clock := mkClock 1700000000000 (str "lun.") 1.

Definition cockpit (entries : list LogEntry) (text : js_string) : Cockpit :=
  mkCockpit (mkHook entries empty_window) text.

End TestHost.

(* ------------------------------------------------------------------ *)
(** * The rest of the application *)
(* ------------------------------------------------------------------ *)

(** ** [Math.max] and the marker of the matrix *)

Module JsMath.

(** [Math.max(x, y)] (ECMA-262, 21.3.2.24 at two arguments): [NaN] if
    either argument is [NaN]; [+0] is above [-0]; otherwise the larger. *)
Definition Math_max (x y : float) : float :=
  if is_nan x || is_nan y then nan
  else
    let highest := x in
    let highest := if is_pos_zero y && is_neg_zero highest then y else highest in
    if highest <? y then y else highest.

End JsMath.

Import JsMath.

(** [Math.min(Math.max(v * 10, 5), 95)]: the [left] (for [x]) and
    [bottom] (for [y]) percentage of the white marker. *)
Definition markerPosition (v : float) : float :=
  Math_min (Math_max (v * 10) 5) 95.

(** ** Single-key updates of the radar, goal and crisis slices *)

Inductive RadarKey :=
  key_inner | key_peers | key_family | key_media | key_professors | key_fog.

Definition radar_get (key : RadarKey) (r : RadarState) : float :=
  match key with
  | key_inner => inner r
  | key_peers => peers r
  | key_family => family r
  | key_media => media r
  | key_professors => professors r
  | key_fog => fog r
  end.

(** [{ ...prev, [key]: val }] *)
Definition radar_with (key : RadarKey) (val : float) (prev : RadarState) : RadarState :=
  match key with
  | key_inner =>
      mkRadar val (peers prev) (family prev) (media prev) (professors prev) (fog prev)
  | key_peers =>
      mkRadar (inner prev) val (family prev) (media prev) (professors prev) (fog prev)
  | key_family =>
      mkRadar (inner prev) (peers prev) val (media prev) (professors prev) (fog prev)
  | key_media =>
      mkRadar (inner prev) (peers prev) (family prev) val (professors prev) (fog prev)
  | key_professors =>
      mkRadar (inner prev) (peers prev) (family prev) (media prev) val (fog prev)
  | key_fog =>
      mkRadar (inner prev) (peers prev) (family prev) (media prev) (professors prev) val
  end.

Inductive GoalKey :=
  key_title | key_date | key_carb_cognitive | key_carb_physical | key_carb_recovery.

Definition goal_get (key : GoalKey) (g : GoalState) : js_string :=
  match key with
  | key_title => title g
  | key_date => date g
  | key_carb_cognitive => carb_cognitive g
  | key_carb_physical => carb_physical g
  | key_carb_recovery => carb_recovery g
  end.

Definition goal_with (key : GoalKey) (val : js_string) (prev : GoalState) : GoalState :=
  match key with
  | key_title =>
      mkGoal val (date prev) (carb_cognitive prev) (carb_physical prev) (carb_recovery prev)
  | key_date =>
      mkGoal (title prev) val (carb_cognitive prev) (carb_physical prev) (carb_recovery prev)
  | key_carb_cognitive =>
      mkGoal (title prev) (date prev) val (carb_physical prev) (carb_recovery prev)
  | key_carb_physical =>
      mkGoal (title prev) (date prev) (carb_cognitive prev) val (carb_recovery prev)
  | key_carb_recovery =>
      mkGoal (title prev) (date prev) (carb_cognitive prev) (carb_physical prev) val
  end.

Inductive CrisisKey := key_supportPerson | key_booster.

Definition crisis_get (key : CrisisKey) (c : CrisisState) : js_string :=
  match key with
  | key_supportPerson => supportPerson c
  | key_booster => booster c
  end.

Definition crisis_with (key : CrisisKey) (val : js_string) (prev : CrisisState) : CrisisState :=
  match key with
  | key_supportPerson => mkCrisis val (booster prev)
  | key_booster => mkCrisis (supportPerson prev) val
  end.

Definition pilot_radar : js_string := str "pilot_radar".
Definition pilot_goal : js_string := str "pilot_goal".
Definition pilot_crisis : js_string := str "pilot_crisis".

(** The defaults handed to [useLocalStorage] in [App]. *)
Definition default_radar : RadarState := radar_of_sliders 30 90 50 70 60 75.
Definition default_goal : GoalState := mkGoal [] (str "15 Mai") [] [] [].
Definition default_crisis : CrisisState := mkCrisis [] [].

Section Updates.
Context `{Host} `{Json RadarState} `{Json GoalState} `{Json CrisisState}.

Definition updateRadar (key : RadarKey) (val : float) (h : Hook RadarState)
    : Hook RadarState :=
  snd (setValue pilot_radar (Updater (fun prev => radar_with key val prev)) h).

Definition updateGoal (key : GoalKey) (val : js_string) (h : Hook GoalState)
    : Hook GoalState :=
  snd (setValue pilot_goal (Updater (fun prev => goal_with key val prev)) h).

Definition updateCrisis (key : CrisisKey) (val : js_string) (h : Hook CrisisState)
    : Hook CrisisState :=
  snd (setValue pilot_crisis (Updater (fun prev => crisis_with key val prev)) h).

End Updates.

(** ** [setValue] as the closure one render creates *)

Section RenderClosure.
Context `{Host} {T : Type} `{Json T}.

(** The [setValue] of one render: [storedValue] is the value that render
    read, whatever the state cell holds when the call is made. *)
Definition setValue_of_render (key : js_string) (storedValue_read : T)
    (value : SetStateAction T) : Eff (Hook T) unit :=
  try_catch
    (let v :=
       match value with
       | Updater f => f storedValue_read
       | Value v => v
       end in
     setStoredValue v ;;
     text <- complete (JSON_stringify v) ;;
     in_window (localStorage_setItem key text))
    (fun error => in_window (console_error error)).

End RenderClosure.

(** ** The cockpit as an event system *)

Section CockpitEvents.
Context `{Host} `{Json (list LogEntry)}.

Inductive CockpitEvent :=
  | TypeText (text : js_string)      (* onChange of the text field *)
  | ClickAdd (now : Clock)           (* the plus button *)
  | ClickClear (answer : Confirm).   (* the trash button, then the dialog *)

Definition step (c : Cockpit) (e : CockpitEvent) : Cockpit :=
  match e with
  | TypeText text => setNewLog text c
  | ClickAdd now => handleAddLog now c
  | ClickClear answer => clearLogs answer c
  end.

Definition run (events : list CockpitEvent) (c : Cockpit) : Cockpit :=
  fold_left step events c.

(** [logs.slice().reverse()]: the order of the history on screen. *)
Definition displayed (c : Cockpit) : list LogEntry := rev (logs c).

End CockpitEvents.

Definition is_confirmed_clear (e : CockpitEvent) : bool :=
  match e with ClickClear true => true | _ => false end.

Definition is_click_add (e : CockpitEvent) : bool :=
  match e with ClickAdd _ => true | _ => false end.

(** Identifiers in strictly increasing order, hence without repetition. *)
Fixpoint ids_increasing (l : list LogEntry) : Prop :=
  match l with
  | [] => True
  | e :: l' => (forall e', In e' l' -> (id e < id e')%Z) /\ ids_increasing l'
  end.

(** How alarming a status is. *)
Definition severity (s : Status) : nat :=
  match s with OPTIMAL => 0 | INTERMEDIAIRE => 1 | CRITIQUE => 2 end.

(** ** Exhaustive checks on how the scores move *)

Module Trends.
Import Exhaust.

(** One more point of inner voice never lowers the mastery score. *)
Definition inner_sums (i fg : float) : bool :=
  all_from 401 0 (fun s => mastery_at i fg s <=? mastery_at (next i) fg s).
Definition inner_fogs (i : float) : bool := all_from 101 0 (inner_sums i).

(** One more point of fog never raises it. *)
Definition fog_sums (i fg : float) : bool :=
  all_from 401 0 (fun s => mastery_at i (next fg) s <=? mastery_at i fg s).
Definition fog_fogs (i : float) : bool := all_from 100 0 (fog_sums i).

(** One more point on an external slider never raises it. *)
Definition noise_sums (i fg : float) : bool :=
  all_from 400 0 (fun s => mastery_at i fg (next s) <=? mastery_at i fg s).
Definition noise_fogs (i : float) : bool := all_from 101 0 (noise_sums i).

(** The scores 10 and 0 are reached at one corner each. *)
Definition corner_at (i fg s : nat) (v : float) : bool :=
  (if v =? 10 then (i =? 100)%nat && (fg =? 0)%nat && (s =? 0)%nat else true)
  && (if v =? 0 then (i =? 0)%nat && (fg =? 100)%nat && (s =? 400)%nat else true).
Definition corner_sums (i : nat) (vi : float) (fg : nat) (vfg : float) : bool :=
  all_from_idx 401 0 0 (fun s vs => corner_at i fg s (mastery_at vi vfg vs)).
Definition corner_fogs (i : nat) (vi : float) : bool :=
  all_from_idx 101 0 0 (corner_sums i vi).

(** The impact score never drops when an anchor or the title is filled in
    or an entry is logged. *)
Definition impact_step_count (carbs : nat) (goal : float) : bool :=
  all_from 10 0 (fun lc => impact_at carbs goal lc <=? impact_at carbs goal (next lc)).
Definition impact_step_goal (carbs : nat) : bool :=
  all_from 11 0 (fun lc => impact_at carbs 0 lc <=? impact_at carbs 1 lc).
Definition impact_step_carbs (carbs : nat) (goal : float) : bool :=
  all_from 11 0 (fun lc => impact_at carbs goal lc <=? impact_at (S carbs) goal lc).

End Trends.

(** ** More hosts to run on *)

Module TestHost2.
Import TestHost.

(** A store that is full: every write is refused. *)
Definition full_disk : Host := {|
  Storage := list (js_string * js_string);
  getItem st key := Normal (lookup st key);
  setItem st key item := Throw QuotaExceededError;
  toLowerCase := ascii_map lower;
  toUpperCase := ascii_map upper
|}.

(** A length-prefixed serialisation of the log, with its reader. *)
Definition encode_entry (e : LogEntry) : js_string :=
  Z.to_N (id e)
  :: N.of_nat (List.length (log_date e)) :: log_date e
  ++ N.of_nat (List.length (domain e)) :: domain e.

Definition encode (l : list LogEntry) : js_string :=
  91%N :: List.concat (map encode_entry l).

Fixpoint decode_entries (fuel : nat) (s : js_string) : option (list LogEntry) :=
  match fuel with
  | O => None
  | S fuel' =>
      match s with
      | [] => Some []
      | i :: n :: rest =>
          let n := N.to_nat n in
          match skipn n rest with
          | m :: rest' =>
              let m := N.to_nat m in
              if ((List.length (firstn n rest) =? n)%nat
                  && (List.length (firstn m rest') =? m)%nat)%bool then
                match decode_entries fuel' (skipn m rest') with
                | Some l =>
                    Some (mkLogEntry (Z.of_N i) (firstn n rest) (firstn m rest') :: l)
                | None => None
                end
              else None
          | [] => None
          end
      | _ => None
      end
  end.

Definition decode (s : js_string) : completion (list LogEntry) :=
  match s with
  | 91%N :: s' =>
      match decode_entries (S (List.length s')) s' with
      | Some l => Normal l
      | None => Throw SyntaxError
      end
  | _ => Throw SyntaxError
  end.

Definition json_codec : Json (list LogEntry) := {|
  JSON_parse := decode;
  JSON_stringify l := Normal (encode l)
|}.

(** Serialisers for the radar that refuse everything: enough to run the
    update handlers, whose state change does not wait for the write. *)
Definition json_refuse (T : Type) : Json T := {|
  JSON_parse _ := Throw SyntaxError;
  JSON_stringify _ := Throw TypeError
|}.

Definition ran_5k : LogEntry := mkLogEntry 1700000000000 (str "Lun 1") (str "Ran 5k").

(** The short weekday names of the [fr-FR] locale and the labels the log
    shows for them. *)
Definition weekdays_fr : list (js_string * js_string) :=
  [ (str "lun.", str "Lun"); (str "mar.", str "Mar"); (str "mer.", str "Mer");
    (str "jeu.", str "Jeu"); (str "ven.", str "Ven"); (str "sam.", str "Sam");
    (str "dim.", str "Dim") ].

Definition label_ok (now_ms : Z) (names : js_string * js_string) (day : nat) : bool :=
  list_eqb
    (formattedDate (mkClock now_ms (fst names) (Z.of_nat day)))
    (snd names ++ str " " ++ number_toString (Z.of_nat day)).

Definition mardi : Clock := mkClock 1700086400000 (str "mar.") 2.

End TestHost2.

(* ================================================================== *)
(** * Properties *)
(* ================================================================== *)

(* ------------------------------------------------------------------ *)
(** ** The order on numbers *)
(* ------------------------------------------------------------------ *)

Module FloatOrder.

Lemma SFcompare_antisym (s t : spec_float) :
  SFcompare s t = option_map CompOpp (SFcompare t s).
Proof.
  destruct s as [[]|[]| |[] m e], t as [[]|[]| |[] m' e'];
    cbn [SFcompare option_map CompOpp]; try reflexivity.
  all: rewrite (Z.compare_antisym e e'); destruct (e ?= e')%Z; cbn; try reflexivity.
  all: change (Pos.compare_cont Eq ?a ?b) with (Pos.compare a b).
  all: rewrite (Pos.compare_antisym m m'); try rewrite CompOpp_involutive; reflexivity.
Qed.

Lemma SFcompare_refl (s : spec_float) :
  s <> S754_nan -> SFcompare s s = Some Eq.
Proof.
  destruct s as [[]|[]| |[] m e]; cbn [SFcompare]; try reflexivity; try congruence.
  all: intros _; rewrite Z.compare_refl.
  all: change (Pos.compare_cont Eq ?a ?b) with (Pos.compare a b).
  all: rewrite Pos.compare_refl; reflexivity.
Qed.

Lemma SFcompare_nan_l (s t : spec_float) c :
  SFcompare s t = Some c -> s <> S754_nan.
Proof. destruct s; cbn; congruence. Qed.

Lemma SFcompare_nan_r (s t : spec_float) c :
  SFcompare s t = Some c -> t <> S754_nan.
Proof. destruct s, t; cbn; congruence. Qed.

Ltac order_cases :=
  repeat match goal with
  | |- context [(?a ?= ?b)%Z] => destruct (Z.compare_spec a b)
  | |- context [Pos.compare_cont Eq ?a ?b] =>
      change (Pos.compare_cont Eq a b) with (Pos.compare a b);
      destruct (Pos.compare_spec a b)
  | H : context [(?a ?= ?b)%Z] |- _ => destruct (Z.compare_spec a b)
  | H : context [Pos.compare_cont Eq ?a ?b] |- _ =>
      change (Pos.compare_cont Eq a b) with (Pos.compare a b) in H;
      destruct (Pos.compare_spec a b)
  end.

Lemma SFleb_trans (a b c : spec_float) :
  SFleb a b = true -> SFleb b c = true -> SFleb a c = true.
Proof.
  unfold SFleb.
  destruct a as [[]|[]| |[] ma ea], b as [[]|[]| |[] mb eb], c as [[]|[]| |[] mc ec];
    cbn [SFcompare]; try congruence; try reflexivity;
    intros Hab Hbc; order_cases; cbn [CompOpp] in *;
    try reflexivity; try discriminate; subst; exfalso; lia.
Qed.

Lemma is_nan_Prim2SF (v : float) :
  is_nan v = false <-> Prim2SF v <> S754_nan.
Proof.
  unfold is_nan. rewrite eqb_spec. unfold SFeqb. split.
  - intros Hv Hn. rewrite Hn in Hv. discriminate.
  - intros Hn. rewrite SFcompare_refl by exact Hn. reflexivity.
Qed.

Lemma leb_not_nan_l (v w : float) : (v <=? w) = true -> is_nan v = false.
Proof.
  rewrite leb_spec. unfold SFleb. intros Hle. apply is_nan_Prim2SF.
  destruct (SFcompare (Prim2SF v) (Prim2SF w)) as [c|] eqn:Hc; [|discriminate].
  exact (SFcompare_nan_l _ _ _ Hc).
Qed.

Lemma leb_not_nan_r (v w : float) : (v <=? w) = true -> is_nan w = false.
Proof.
  rewrite leb_spec. unfold SFleb. intros Hle. apply is_nan_Prim2SF.
  destruct (SFcompare (Prim2SF v) (Prim2SF w)) as [c|] eqn:Hc; [|discriminate].
  exact (SFcompare_nan_r _ _ _ Hc).
Qed.

Lemma SFcompare_defined (s t : spec_float) :
  s <> S754_nan -> t <> S754_nan -> exists c, SFcompare s t = Some c.
Proof.
  destruct s as [[]|[]| |[] m e], t as [[]|[]| |[] m' e'];
    cbn [SFcompare]; try congruence; eexists; reflexivity.
Qed.

(** On numbers that are not [NaN] the order is total. *)
Lemma not_leb_ltb (v w : float) :
  is_nan v = false -> is_nan w = false -> (v <=? w) = false -> (w <? v) = true.
Proof.
  rewrite !is_nan_Prim2SF, leb_spec, ltb_spec. unfold SFleb, SFltb.
  intros Hv Hw. rewrite (SFcompare_antisym (Prim2SF w)).
  destruct (SFcompare_defined _ _ Hv Hw) as [c ->].
  destruct c; cbn; congruence.
Qed.

Lemma ltb_not_leb (v w : float) : (w <? v) = true -> (v <=? w) = false.
Proof.
  rewrite leb_spec, ltb_spec. unfold SFleb, SFltb.
  rewrite (SFcompare_antisym (Prim2SF w)).
  destruct (SFcompare (Prim2SF v) (Prim2SF w)) as [[]|]; cbn; congruence.
Qed.

Lemma leb_trans (u v w : float) :
  (u <=? v) = true -> (v <=? w) = true -> (u <=? w) = true.
Proof. rewrite !leb_spec. apply SFleb_trans. Qed.

(** Two numbers that compare equal and are not zero are the same number. *)
Lemma SFcompare_Eq_finite (s : spec_float) b m e :
  SFcompare (S754_finite b m e) s = Some Eq -> s = S754_finite b m e.
Proof.
  destruct s as [[]|[]| |[] m' e'], b; cbn [SFcompare]; try congruence;
    intros H; order_cases; cbn [CompOpp] in *; try congruence;
    subst; reflexivity.
Qed.

Lemma leb_not_ltb_eq (c v : float) b m e :
  Prim2SF c = S754_finite b m e ->
  (c <=? v) = true -> (c <? v) = false -> v = c.
Proof.
  rewrite leb_spec, ltb_spec. unfold SFleb, SFltb. intros Hc Hle Hlt.
  apply Prim2SF_inj. rewrite Hc in *.
  apply SFcompare_Eq_finite.
  destruct (SFcompare (S754_finite b m e) (Prim2SF v)) as [[]|]; congruence.
Qed.

(** [Math.min] against a positive finite constant saturates. *)
Lemma Math_min_saturates (lc : float) :
  (10 <=? lc) = true -> Math_min lc 10 = 10.
Proof.
  intros Hle. unfold Math_min.
  rewrite (leb_not_nan_r _ _ Hle).
  change (is_nan 10) with false. change (is_neg_zero 10) with false.
  cbn [orb andb].
  destruct (10 <? lc) eqn:Hlt; [reflexivity|].
  apply (leb_not_ltb_eq 10 lc false 5629499534213120 (-49)); [reflexivity| |]; assumption.
Qed.

End FloatOrder.

(* ------------------------------------------------------------------ *)
(** ** Fog classification *)
(* ------------------------------------------------------------------ *)

Lemma status_optimal (data : RadarState) :
  status (analyzeSignal data) = OPTIMAL <-> Spec.optimal (fog data) = true.
Proof.
  unfold analyzeSignal, Spec.optimal.
  destruct (fog data <=? 30); [|destruct (fog data <=? 70)]; cbn; split; congruence.
Qed.

Lemma optimal_below_70 (v : float) : (v <=? 30) = true -> (v <=? 70) = true.
Proof.
  intros Hv. apply (FloatOrder.leb_trans v 30 70 Hv). reflexivity.
Qed.

(** C3: for a fog value in [0,100] the status is OPTIMAL exactly when
    [fog <= 30], INTERMEDIAIRE exactly when [30 < fog <= 70] and CRITIQUE
    exactly when [fog > 70]; exactly one of the three bands holds; slider
    positions 30, 31, 70 and 71 fall in OPTIMAL, INTERMEDIAIRE,
    INTERMEDIAIRE and CRITIQUE. *)
Theorem fog_bands (data : RadarState) :
  (0 <=? fog data) = true -> (fog data <=? 100) = true ->
  let f := fog data in
  let s := status (analyzeSignal data) in
  (s = OPTIMAL <-> (f <=? 30) = true)
  /\ (s = INTERMEDIAIRE <-> (30 <? f) = true /\ (f <=? 70) = true)
  /\ (s = CRITIQUE <-> (70 <? f) = true)
  /\ (Spec.optimal f = true /\ Spec.intermediate f = false /\ Spec.critical f = false
      \/ Spec.optimal f = false /\ Spec.intermediate f = true /\ Spec.critical f = false
      \/ Spec.optimal f = false /\ Spec.intermediate f = false /\ Spec.critical f = true)
  /\ (forall i p fa m pr,
        status (analyzeSignal (radar_of_sliders i p fa m pr 30)) = OPTIMAL
        /\ status (analyzeSignal (radar_of_sliders i p fa m pr 31)) = INTERMEDIAIRE
        /\ status (analyzeSignal (radar_of_sliders i p fa m pr 70)) = INTERMEDIAIRE
        /\ status (analyzeSignal (radar_of_sliders i p fa m pr 71)) = CRITIQUE).
Proof.
  intros H0 H100 f s.
  pose proof (FloatOrder.leb_not_nan_l _ _ H100) as Hnan.
  assert (Hn30 : is_nan 30 = false) by reflexivity.
  assert (Hn70 : is_nan 70 = false) by reflexivity.
  pose proof (FloatOrder.not_leb_ltb f 30 Hnan Hn30) as Hgt30.
  pose proof (FloatOrder.not_leb_ltb f 70 Hnan Hn70) as Hgt70.
  pose proof (FloatOrder.ltb_not_leb f 30) as Hle30.
  pose proof (FloatOrder.ltb_not_leb f 70) as Hle70.
  pose proof (optimal_below_70 f) as H3070.
  subst s. unfold analyzeSignal, Spec.optimal, Spec.intermediate, Spec.critical.
  fold f.
  destruct (f <=? 30) eqn:E30; destruct (f <=? 70) eqn:E70;
    destruct (30 <? f) eqn:L30; destruct (70 <? f) eqn:L70; cbn;
    try (specialize (H3070 eq_refl); discriminate);
    try (specialize (Hgt30 eq_refl); discriminate);
    try (specialize (Hgt70 eq_refl); discriminate);
    try (specialize (Hle30 eq_refl); discriminate);
    try (specialize (Hle70 eq_refl); discriminate).
  all: repeat split; try congruence; try tauto; try (intros [? ?]; congruence).
Qed.

(** The theorem at the slider position 30. *)
Lemma fog_bands_witness :
  status (analyzeSignal (radar_of_sliders 30 90 50 70 60 30)) = OPTIMAL
  <-> (slider 30 <=? 30) = true.
Proof.
  exact (proj1 (fog_bands (radar_of_sliders 30 90 50 70 60 30) eq_refl eq_refl)).
Defined.

(* ------------------------------------------------------------------ *)
(** ** The authorization banner *)
(* ------------------------------------------------------------------ *)

(** C4: the banner is shown if and only if both [masteryScore > 7] and
    [impactScore > 7], strictly; scores [(10, 10)] show it, a mastery score
    of exactly [7] never does, and both situations are reached by states of
    the application. *)
Theorem authorization_iff (radar : RadarState) (goal : GoalState) (logCount : float) :
  (PageMission_authorized radar goal logCount = true
     <-> (7 <? masteryScore radar) = true /\ (7 <? impactScore goal logCount) = true)
  /\ authorization (mkPoint 10 10) = true
  /\ (forall y, authorization (mkPoint 7 y) = false)
  /\ calculateMatrix (radar_of_sliders 100 0 0 0 0 0) full_goal 10 = mkPoint 10 10
  /\ PageMission_authorized (radar_of_sliders 100 0 0 0 0 0) full_goal 10 = true
  /\ masteryScore (radar_of_sliders 100 0 0 0 0 100) = 7
  /\ PageMission_authorized (radar_of_sliders 100 0 0 0 0 100) full_goal 10 = false.
Proof.
  split; [|repeat split; try reflexivity].
  unfold PageMission_authorized, authorization, calculateMatrix. cbn [x y].
  apply andb_true_iff.
Qed.

(* ------------------------------------------------------------------ *)
(** ** Saturation of the log-count term *)
(* ------------------------------------------------------------------ *)

Lemma impactScore_logTerm (goal : GoalState) (logCount : float) :
  impactScore goal logCount
  = ((of_nat (carbCount goal) / 3) * 10 * 0.4) + (goalSet goal * 10 * 0.2)
    + logTerm logCount.
Proof. reflexivity. Qed.

(** C5: from ten entries on the impact score no longer depends on the log
    count; the log-count term is the same at 10 and at 1000. *)
Theorem impactScore_saturates (goal : GoalState) (logCount : float) :
  (10 <=? logCount) = true ->
  impactScore goal logCount = impactScore goal 10
  /\ logTerm logCount = logTerm 10
  /\ logTerm 1000 = logTerm 10.
Proof.
  intros Hle. unfold impactScore, logTerm.
  rewrite (FloatOrder.Math_min_saturates logCount Hle).
  repeat split; reflexivity.
Qed.

(** The theorem at a thousand entries. *)
Lemma impactScore_saturates_witness :
  impactScore full_goal 1000 = impactScore full_goal 10.
Proof.
  exact (proj1 (impactScore_saturates full_goal 1000 eq_refl)).
Defined.

(* ------------------------------------------------------------------ *)
(** ** Integers as numbers *)
(* ------------------------------------------------------------------ *)

Module IntegerNumbers.

Local Open Scope Z_scope.

Lemma digits2_pos_iter_xO (k p : positive) :
  digits2_pos (Pos.iter xO p k) = (digits2_pos p + k)%positive.
Proof.
  revert p. induction k as [|k IHk] using Pos.peano_ind; intros p.
  - cbn. lia.
  - rewrite Pos.iter_succ. cbn [digits2_pos]. rewrite IHk. lia.
Qed.

Lemma digits2_pos_bounds (p : positive) :
  2 ^ (Zpos (digits2_pos p) - 1) <= Zpos p < 2 ^ Zpos (digits2_pos p).
Proof.
  induction p as [p IH|p IH|]; cbn [digits2_pos]; [| |cbn; lia].
  all: rewrite Pos2Z.inj_succ.
  all: replace (Z.succ (Zpos (digits2_pos p)) - 1)
         with (Z.succ (Zpos (digits2_pos p) - 1)) by lia.
  all: rewrite !Z.pow_succ_r by lia; lia.
Qed.

Lemma iter_xO_value (k p : positive) :
  Zpos (Pos.iter xO p k) = Zpos p * 2 ^ Zpos k.
Proof.
  revert p. induction k as [|k IHk] using Pos.peano_ind; intros p.
  - cbn. lia.
  - rewrite Pos.iter_succ, Pos2Z.inj_succ, Z.pow_succ_r by lia.
    rewrite Pos2Z.inj_xO, IHk. lia.
Qed.

(** Below [2^53] the conversion of an integer only shifts its mantissa
    into place: nothing is rounded away. *)
Lemma binary_round_exact (p : positive) :
  Zpos p < 2 ^ 53 ->
  exists m,
    binary_round prec emax false p 0
      = S754_finite false m (Zpos (digits2_pos p) - 53)
    /\ Zpos m = Zpos p * 2 ^ (53 - Zpos (digits2_pos p)).
Proof.
  intros Hp.
  pose proof (digits2_pos_bounds p) as [Hlo _].
  assert (Hd : Zpos (digits2_pos p) <= 53).
  { destruct (Z.le_gt_cases (Zpos (digits2_pos p)) 53) as [Hle|Hgt]; [exact Hle|].
    exfalso.
    assert (2 ^ 53 <= 2 ^ (Zpos (digits2_pos p) - 1)) by (apply Z.pow_le_mono_r; lia).
    lia. }
  set (d := digits2_pos p) in *.
  unfold binary_round. fold d.
  assert (Hfexp : fexp prec emax (Zpos d + 0) = Zpos d - 53)
    by (unfold fexp, emin, prec, emax; lia).
  rewrite Hfexp.
  assert (Haux : forall mz : positive, digits2_pos mz = 53%positive ->
    binary_round_aux prec emax false (Zpos mz) (Zpos d - 53) loc_Exact
      = S754_finite false mz (Zpos d - 53)).
  { intros mz Hmz. unfold binary_round_aux, shr_fexp.
    cbn [Zdigits2 shr_record_of_loc]. rewrite Hmz.
    assert (Hstay : fexp prec emax (53 + (Zpos d - 53)) - (Zpos d - 53) = 0)
      by (unfold fexp, emin, prec, emax; lia).
    rewrite Hstay.
    cbn [shr shr_m loc_of_shr_record round_nearest_even Zdigits2].
    rewrite Hmz, Hstay. cbn [shr shr_m].
    replace (Zpos d - 53 <=? emax - prec) with true; [reflexivity|].
    symmetry. apply Z.leb_le. unfold emax, prec. lia. }
  unfold shl_align.
  destruct (Zpos d - 53 - 0) as [|q|q] eqn:Hq; try lia.
  - exists p. cbv iota beta.
    assert (Hd0 : Zpos d - 53 = 0) by lia. rewrite Hd0 in Haux |- *.
    rewrite Haux.
    + split; [reflexivity|]. replace (53 - Zpos d) with 0 by lia. lia.
    + fold d. lia.
  - exists (Pos.iter xO p q). rewrite Haux.
    + split; [reflexivity|]. rewrite iter_xO_value. f_equal. f_equal. lia.
    + rewrite digits2_pos_iter_xO. fold d. lia.
Qed.

(** An integer count of ten or more is a number of ten or more. *)
Lemma of_Z_ge_10 (z : Z) :
  10 <= z < 2 ^ 53 -> (10 <=? of_Z z)%float = true.
Proof.
  intros Hz. destruct z as [|p|p]; try lia.
  unfold of_Z. rewrite leb_spec, of_uint63_spec, Uint63.of_Z_spec.
  rewrite Z.mod_small
    by (change wB with (2 ^ 63); split; [lia|];
        apply Z.lt_trans with (2 ^ 53); [lia|reflexivity]).
  cbn [binary_normalize].
  destruct (binary_round_exact p) as (m & -> & Hm); [lia|].
  change (Prim2SF 10) with (S754_finite false 5629499534213120 (-49)).
  unfold SFleb. cbn [SFcompare].
  pose proof (digits2_pos_bounds p) as [Hlo Hhi].
  set (d := Zpos (digits2_pos p)) in *.
  assert (Hd4 : 4 <= d).
  { destruct (Z.le_gt_cases 4 d) as [Hle|Hgt]; [exact Hle|]. exfalso.
    assert (2 ^ d <= 2 ^ 3) by (apply Z.pow_le_mono_r; lia).
    change (2 ^ 3) with 8 in *. lia. }
  destruct (Z.compare_spec (-49) (d - 53)) as [He|He|He];
    try reflexivity; try lia.
  change (Pos.compare_cont Eq ?a ?b) with (Pos.compare a b).
  assert (d = 4) by lia.
  replace (53 - d) with 49 in Hm by lia.
  destruct (Pos.compare_spec 5629499534213120 m) as [Hc|Hc|Hc]; try reflexivity.
  exfalso. apply Pos2Z.pos_lt_pos in Hc. rewrite Hm in Hc.
  change (Zpos 5629499534213120) with (10 * 2 ^ 49) in Hc.
  assert (0 < 2 ^ 49) by reflexivity. nia.
Qed.

End IntegerNumbers.

(* ------------------------------------------------------------------ *)
(** ** Reading the exhaustive checks *)
(* ------------------------------------------------------------------ *)

Module ExhaustFacts.
Import Exhaust.

Lemma iter_next_shift (k : nat) (v : float) :
  Nat.iter k next (next v) = Nat.iter (S k) next v.
Proof.
  induction k as [|k IH]; [reflexivity|].
  change (Nat.iter (S k) next (next v)) with (next (Nat.iter k next (next v))).
  rewrite IH. reflexivity.
Qed.

Lemma all_from_spec (P : float -> bool) (n : nat) :
  forall v, all_from n v P = true ->
  forall k, (k < n)%nat -> P (Nat.iter k next v) = true.
Proof.
  induction n as [|n IH]; intros v Hall k Hk; [lia|].
  cbn [all_from] in Hall. destruct (P v) eqn:Hv; [|discriminate].
  destruct k as [|k]; [exact Hv|].
  rewrite <- iter_next_shift. apply IH; [exact Hall|lia].
Qed.

Lemma all_from_idx_spec (P : nat -> float -> bool) (n : nat) :
  forall k0 v, all_from_idx n k0 v P = true ->
  forall k, (k < n)%nat -> P (k0 + k)%nat (Nat.iter k next v) = true.
Proof.
  induction n as [|n IH]; intros k0 v Hall k Hk; [lia|].
  cbn [all_from_idx] in Hall. destruct (P k0 v) eqn:Hv; [|discriminate].
  destruct k as [|k].
  - rewrite Nat.add_0_r. exact Hv.
  - rewrite <- iter_next_shift, <- Nat.add_succ_comm. apply IH; [exact Hall|lia].
Qed.

Lemma counter_below (P : float -> bool) (n : nat) :
  all_from n 0 P = true -> forall k, (k < n)%nat -> P (counter k) = true.
Proof. intros Hall k Hk. exact (all_from_spec P n 0 Hall k Hk). Qed.

Lemma counter_idx_below (P : nat -> float -> bool) (n : nat) :
  all_from_idx n 0 0 P = true -> forall k, (k < n)%nat -> P k (counter k) = true.
Proof. intros Hall k Hk. exact (all_from_idx_spec P n 0 0 Hall k Hk). Qed.

Lemma conversions_agree_ok : all_from_idx 401 0 0 conversion_at = true.
Proof. vm_compute. reflexivity. Qed.

Lemma sums_exact_ok : all_from_idx 301 0 0 sum_row = true.
Proof. vm_compute. reflexivity. Qed.

Lemma quarter_exact_ok : all_from_idx 401 0 0 quarter_at = true.
Proof. vm_compute. reflexivity. Qed.

Lemma mastery_on_scale_ok : all_from 101 0 mastery_fogs = true.
Proof. vm_compute. reflexivity. Qed.

Lemma of_nat_counter (k : nat) : (k <= 400)%nat -> of_nat k = counter k.
Proof.
  intros Hk. apply Leibniz.eqb_spec.
  exact (counter_idx_below conversion_at 401 conversions_agree_ok k ltac:(lia)).
Qed.

Lemma counter_add (a b : nat) :
  (a <= 300)%nat -> (b <= 100)%nat -> counter a + counter b = counter (a + b).
Proof.
  intros Ha Hb. apply Leibniz.eqb_spec.
  pose proof (counter_idx_below sum_row 301 sums_exact_ok a ltac:(lia)) as Hrow.
  unfold sum_row in Hrow.
  exact (counter_idx_below _ 101 Hrow b ltac:(lia)).
Qed.

Lemma quarter_counter (s : nat) :
  (s <= 400)%nat ->
  exists q, to_Q (counter s / 4) = Some q /\ (q == Z.of_nat s # 4)%Q.
Proof.
  intros Hs.
  pose proof (counter_idx_below quarter_at 401 quarter_exact_ok s ltac:(lia)) as Hq.
  unfold quarter_at in Hq.
  destruct (to_Q (counter s / 4)) as [q|]; [|discriminate].
  exists q. split; [reflexivity|]. apply Qeq_bool_iff. exact Hq.
Qed.

Lemma mastery_at_on_scale (i fg s : nat) :
  (i <= 100)%nat -> (fg <= 100)%nat -> (s <= 400)%nat ->
  on_scale (mastery_at (counter i) (counter fg) (counter s)) = true.
Proof.
  intros Hi Hfg Hs.
  pose proof (counter_below mastery_fogs 101 mastery_on_scale_ok i ltac:(lia)) as H1.
  unfold mastery_fogs in H1.
  pose proof (counter_below _ 101 H1 fg ltac:(lia)) as H2.
  unfold mastery_sums in H2.
  exact (counter_below _ 401 H2 s ltac:(lia)).
Qed.

Lemma impact_counts_ok (carbs : nat) :
  (carbs <= 3)%nat -> impact_counts carbs 0 = true /\ impact_counts carbs 1 = true.
Proof.
  intros Hc.
  do 4 (destruct carbs as [|carbs]; [split; vm_compute; reflexivity|]).
  lia.
Qed.

Lemma small_min_ok : all_from 11 0 small_min = true.
Proof. vm_compute. reflexivity. Qed.

Lemma Math_min_small (k : nat) :
  (k <= 10)%nat -> Math_min (counter k) 10 = counter k.
Proof.
  intros Hk. apply Leibniz.eqb_spec.
  exact (counter_below small_min 11 small_min_ok k ltac:(lia)).
Qed.

Lemma impact_at_on_scale (carbs : nat) (goal : bool) (k : nat) :
  (carbs <= 3)%nat -> (k <= 10)%nat ->
  on_scale (impact_at carbs (if goal then 1 else 0) (counter k)) = true.
Proof.
  intros Hc Hk. destruct (impact_counts_ok carbs Hc) as [H0 H1].
  unfold impact_counts in H0, H1.
  destruct goal.
  - exact (counter_below _ 11 H1 k ltac:(lia)).
  - exact (counter_below _ 11 H0 k ltac:(lia)).
Qed.

(** A slider position is the counter at that position. *)
Lemma slider_counter (z : Z) :
  (0 <= z <= 100)%Z -> slider z = counter (Z.to_nat z).
Proof.
  intros Hz. unfold slider.
  rewrite <- of_nat_counter by lia.
  unfold of_nat. rewrite Z2Nat.id by lia. reflexivity.
Qed.

(** The sum of the four external sliders is computed exactly. *)
Lemma sliders_sum (p m f pr : Z) :
  (0 <= p <= 100)%Z -> (0 <= m <= 100)%Z -> (0 <= f <= 100)%Z -> (0 <= pr <= 100)%Z ->
  slider p + slider m + slider f + slider pr
  = counter (Z.to_nat (p + m + f + pr)).
Proof.
  intros Hp Hm Hf Hpr.
  rewrite !slider_counter by assumption.
  rewrite !counter_add by lia.
  f_equal. lia.
Qed.

End ExhaustFacts.

(* ------------------------------------------------------------------ *)
(** ** The mastery score *)
(* ------------------------------------------------------------------ *)

(** The code computes the formula of the specification, on every radar
    state. *)
Lemma masteryScore_spec (r : RadarState) : masteryScore r = Spec.masteryScore r.
Proof. reflexivity. Qed.

Lemma externalNoise_exact (p m f pr : Z) (i fg : Z) :
  (0 <= p <= 100)%Z -> (0 <= m <= 100)%Z -> (0 <= f <= 100)%Z -> (0 <= pr <= 100)%Z ->
  exists q, to_Q (externalNoise (radar_of_sliders i p f m pr fg)) = Some q
            /\ (q == (p + m + f + pr) # 4)%Q.
Proof.
  intros Hp Hm Hf Hpr. unfold externalNoise, radar_of_sliders.
  cbn [peers media family professors].
  rewrite ExhaustFacts.sliders_sum by assumption.
  destruct (ExhaustFacts.quarter_counter (Z.to_nat (p + m + f + pr))) as (q & Hq & Hv);
    [lia|].
  exists q. split; [exact Hq|]. rewrite Hv, Z2Nat.id by lia. reflexivity.
Qed.

(** C1: with all six sliders in [0,100] the mastery score is
    [(inner*0.5 + (100-fog)*0.3 + (100-externalNoise)*0.2)/10], where
    [externalNoise] is the mean of peers, media, family and professors, and
    that mean is computed without rounding; at inner 100 and everything
    else 0 the score is exactly 10. *)
Theorem masteryScore_formula (i p f m pr fg : Z) :
  (0 <= i <= 100)%Z -> (0 <= p <= 100)%Z -> (0 <= f <= 100)%Z ->
  (0 <= m <= 100)%Z -> (0 <= pr <= 100)%Z -> (0 <= fg <= 100)%Z ->
  let r := radar_of_sliders i p f m pr fg in
  masteryScore r
    = (inner r * 0.5 + (100 - fog r) * 0.3
       + (100 - Spec.mean [peers r; media r; family r; professors r]) * 0.2) / 10
  /\ externalNoise r = Spec.mean [peers r; media r; family r; professors r]
  /\ (exists q, to_Q (externalNoise r) = Some q /\ (q == (p + m + f + pr) # 4)%Q)
  /\ masteryScore (radar_of_sliders 100 0 0 0 0 0) = 10.
Proof.
  intros Hi Hp Hf Hm Hpr Hfg r.
  split; [reflexivity|]. split; [reflexivity|]. split; [|reflexivity].
  apply externalNoise_exact; assumption.
Qed.

(** The theorem on the radar state of the scenario. *)
Lemma masteryScore_formula_witness :
  masteryScore (radar_of_sliders 100 0 0 0 0 0) = 10.
Proof.
  exact (proj2 (proj2 (proj2
    (masteryScore_formula 100 0 0 0 0 0
       ltac:(lia) ltac:(lia) ltac:(lia) ltac:(lia) ltac:(lia) ltac:(lia))))).
Defined.

(* ------------------------------------------------------------------ *)
(** ** The impact score *)
(* ------------------------------------------------------------------ *)

Lemma carbCount_counts_raw (g : GoalState) : carbCount g = Spec.carbCount_raw g.
Proof.
  unfold carbCount, Spec.carbCount_raw, Spec.indicator. cbn [filter].
  destruct (2 <? JsString.length (carb_cognitive g))%nat;
    destruct (2 <? JsString.length (carb_physical g))%nat;
    destruct (2 <? JsString.length (carb_recovery g))%nat; reflexivity.
Qed.

Lemma goalSet_indicator (g : GoalState) : goalSet g = of_nat (Spec.goalSet g).
Proof.
  unfold goalSet, Spec.goalSet, Spec.indicator.
  destruct (2 <? JsString.length (title g))%nat; reflexivity.
Qed.

(** Two numbers with different comparison results are different. *)
Lemma float_neq (v w : float) : (v =? w) = false -> is_nan w = false -> v <> w.
Proof.
  intros Hne Hnan Heq. subst v. unfold is_nan in Hnan.
  rewrite Hne in Hnan. discriminate.
Qed.

(** C2, as stated, fails: an anchor made of three spaces has length 3 and
    trimmed length 0; the code counts it, the stated formula does not. *)
Lemma impactScore_trimmed_counterexample :
  let g := mkGoal [] (str "15 Mai") (str "   ") [] [] in
  impactScore g 0 <> Spec.impactScore_with Spec.carbCount_trimmed g 0.
Proof.
  cbv zeta. apply float_neq; vm_compute; reflexivity.
Qed.

(** C2, amended: the impact score is
    [(carbCount/3)*10*0.4 + goalSet*10*0.2 + (min(logCount,10)/10)*10*0.4]
    where [carbCount] counts the anchors whose stored (untrimmed) length
    exceeds 2 and [goalSet] is 1 exactly when the title's length exceeds 2;
    with the title and the three anchors longer than 2 and ten log entries
    the score is exactly 10. *)
Theorem impactScore_formula (g : GoalState) (logCount : float) :
  impactScore g logCount = Spec.impactScore_with Spec.carbCount_raw g logCount
  /\ ((2 < JsString.length (carb_cognitive g))%nat ->
      (2 < JsString.length (carb_physical g))%nat ->
      (2 < JsString.length (carb_recovery g))%nat ->
      (2 < JsString.length (title g))%nat ->
      impactScore g 10 = 10).
Proof.
  split.
  - unfold impactScore, Spec.impactScore_with.
    rewrite carbCount_counts_raw, goalSet_indicator. reflexivity.
  - intros H1 H2 H3 H4. unfold impactScore, carbCount, goalSet. cbn [filter].
    apply Nat.ltb_lt in H1, H2, H3, H4. rewrite H1, H2, H3, H4.
    reflexivity.
Qed.

(** The theorem on a goal with everything filled in. *)
Lemma impactScore_formula_witness : impactScore full_goal 10 = 10.
Proof.
  apply (proj2 (impactScore_formula full_goal 10)); vm_compute; lia.
Defined.

(* ------------------------------------------------------------------ *)
(** ** Both scores stay on the 0-10 scale *)
(* ------------------------------------------------------------------ *)

Lemma masteryScore_on_scale (i p f m pr fg : Z) :
  (0 <= i <= 100)%Z -> (0 <= p <= 100)%Z -> (0 <= f <= 100)%Z ->
  (0 <= m <= 100)%Z -> (0 <= pr <= 100)%Z -> (0 <= fg <= 100)%Z ->
  on_scale (masteryScore (radar_of_sliders i p f m pr fg)) = true.
Proof.
  intros Hi Hp Hf Hm Hpr Hfg.
  unfold masteryScore, externalNoise, radar_of_sliders.
  cbn [inner peers media family professors fog].
  rewrite ExhaustFacts.sliders_sum by assumption.
  rewrite (ExhaustFacts.slider_counter i), (ExhaustFacts.slider_counter fg) by assumption.
  apply ExhaustFacts.mastery_at_on_scale; lia.
Qed.

Lemma carbCount_le_3 (g : GoalState) : (carbCount g <= 3)%nat.
Proof.
  unfold carbCount. cbn [filter].
  destruct (2 <? JsString.length (carb_cognitive g))%nat;
    destruct (2 <? JsString.length (carb_physical g))%nat;
    destruct (2 <? JsString.length (carb_recovery g))%nat; cbn; lia.
Qed.

Lemma impactScore_as_impact_at (g : GoalState) (logCount : float) :
  impactScore g logCount
  = Exhaust.impact_at (carbCount g)
      (if (2 <? JsString.length (title g))%nat then 1 else 0)
      (Math_min logCount 10).
Proof. reflexivity. Qed.

(** From ten on, whatever the number (an integer or not, finite or not). *)
Lemma impactScore_on_scale_saturated (g : GoalState) (logCount : float) :
  (10 <=? logCount) = true -> on_scale (impactScore g logCount) = true.
Proof.
  intros Hle. rewrite impactScore_as_impact_at.
  rewrite (FloatOrder.Math_min_saturates logCount Hle).
  change 10 with (Exhaust.counter 10).
  apply ExhaustFacts.impact_at_on_scale; [apply carbCount_le_3|lia].
Qed.

Lemma impactScore_on_scale (g : GoalState) (n : Z) :
  (0 <= n < 2 ^ 53)%Z -> on_scale (impactScore g (of_Z n)) = true.
Proof.
  intros Hn.
  destruct (Z.le_gt_cases n 10) as [Hsmall|Hlarge].
  - rewrite impactScore_as_impact_at.
    replace (of_Z n) with (Exhaust.counter (Z.to_nat n)).
    + rewrite ExhaustFacts.Math_min_small by lia.
      apply ExhaustFacts.impact_at_on_scale; [apply carbCount_le_3|lia].
    + rewrite <- ExhaustFacts.of_nat_counter by lia.
      unfold of_nat. rewrite Z2Nat.id by lia. reflexivity.
  - apply impactScore_on_scale_saturated.
    apply IntegerNumbers.of_Z_ge_10. lia.
Qed.

(** C7: with the six sliders in [0,100], any goal and any log count (a
    non-negative integer that a number holds exactly, as every array
    length is), both scores lie in [0,10]; the impact score also does for
    every number from ten on; and the pair is a function of
    (radar, goal, logCount): equal inputs give equal pairs. *)
Theorem scores_on_scale (i p f m pr fg : Z) (goal : GoalState) (n : Z) :
  (0 <= i <= 100)%Z -> (0 <= p <= 100)%Z -> (0 <= f <= 100)%Z ->
  (0 <= m <= 100)%Z -> (0 <= pr <= 100)%Z -> (0 <= fg <= 100)%Z ->
  (0 <= n < 2 ^ 53)%Z ->
  let radar := radar_of_sliders i p f m pr fg in
  let pt := calculateMatrix radar goal (of_Z n) in
  ((0 <=? x pt) = true /\ (x pt <=? 10) = true)
  /\ ((0 <=? y pt) = true /\ (y pt <=? 10) = true)
  /\ (forall logCount, (10 <=? logCount) = true ->
        let pt' := calculateMatrix radar goal logCount in
        x pt' = x pt /\ (0 <=? y pt') = true /\ (y pt' <=? 10) = true)
  /\ (forall radar' goal' logCount',
        radar' = radar -> goal' = goal -> logCount' = of_Z n ->
        calculateMatrix radar' goal' logCount' = pt).
Proof.
  intros Hi Hp Hf Hm Hpr Hfg Hn radar pt.
  pose proof (masteryScore_on_scale i p f m pr fg Hi Hp Hf Hm Hpr Hfg) as Hx.
  pose proof (impactScore_on_scale goal n Hn) as Hy.
  unfold on_scale in Hx, Hy. apply andb_true_iff in Hx, Hy.
  split; [exact Hx|]. split; [exact Hy|]. split.
  - intros logCount Hle pt'.
    pose proof (impactScore_on_scale_saturated goal logCount Hle) as Hy'.
    unfold on_scale in Hy'. apply andb_true_iff in Hy'.
    split; [reflexivity|exact Hy'].
  - intros radar' goal' logCount' -> -> ->. reflexivity.
Qed.

(** The theorem on the default radar state, an empty goal and three
    entries. *)
Lemma scores_on_scale_witness :
  let pt := calculateMatrix (radar_of_sliders 30 90 50 70 60 75)
              (mkGoal [] (str "15 Mai") [] [] []) (of_Z 3) in
  (0 <=? x pt) = true /\ (x pt <=? 10) = true.
Proof.
  exact (proj1 (scores_on_scale 30 90 50 70 60 75 (mkGoal [] (str "15 Mai") [] [] []) 3
    ltac:(lia) ltac:(lia) ltac:(lia) ltac:(lia) ltac:(lia) ltac:(lia) ltac:(lia))).
Defined.

(* ------------------------------------------------------------------ *)
(** ** The local-storage hook *)
(* ------------------------------------------------------------------ *)

Section HookFacts.
Context `{Host} {T : Type} `{Json T}.

(** [setValue] never throws, and whatever happens to the write-through the
    React state holds the new value. *)
Lemma setValue_stores (key : js_string) (value : SetStateAction T) (h : Hook T) :
  exists w', setValue key value h = (Normal tt, mkHook (valueToStore value h) w').
Proof.
  unfold setValue, try_catch, bind, get, setStoredValue, modify, complete,
    in_window.
  cbn [window storedValue].
  destruct (JSON_stringify (valueToStore value h)) as [text|e]; cbn.
  - unfold localStorage_setItem.
    destruct (setItem (localStorage (window h)) key text) as [st|e]; cbn.
    + eexists. reflexivity.
    + eexists. reflexivity.
  - eexists. reflexivity.
Qed.

Lemma setValue_storedValue (key : js_string) (value : SetStateAction T) (h : Hook T) :
  storedValue (snd (setValue key value h)) = valueToStore value h.
Proof.
  destruct (setValue_stores key value h) as [w' ->]. reflexivity.
Qed.

(** When serialisation and the write succeed the new value is persisted
    under the key. *)
Lemma setValue_persists (key : js_string) (value : SetStateAction T) (h : Hook T)
    (text : js_string) (st : Storage) :
  JSON_stringify (valueToStore value h) = Normal text ->
  setItem (localStorage (window h)) key text = Normal st ->
  setValue key value h
  = (Normal tt, mkHook (valueToStore value h) (mkWindow _ st (console (window h)))).
Proof.
  intros Htext Hst.
  unfold setValue, try_catch, bind, get, setStoredValue, modify, complete,
    in_window, localStorage_setItem.
  cbn [window storedValue].
  rewrite Htext. cbn. rewrite Hst. reflexivity.
Qed.

(** C8: the initial read of a slice never throws; it yields the parsed
    stored value when the key is present and its text parses, and the
    supplied default when the key is missing, when the text does not parse
    or when the storage itself refuses the read; a parse failure is logged
    to the console. *)
Theorem initialState_total (key : js_string) (initialValue : T) (w : Window) :
  (forall v, JSON_parse [] <> Normal v) ->
  (exists v w', initialState key initialValue w = (Normal v, w'))
  /\ (forall text v,
        getItem (localStorage w) key = Normal (Some text) ->
        JSON_parse text = Normal v ->
        initialState key initialValue w = (Normal v, w))
  /\ (getItem (localStorage w) key = Normal None ->
        initialState key initialValue w = (Normal initialValue, w))
  /\ (forall text e,
        getItem (localStorage w) key = Normal (Some text) ->
        JSON_parse text = Throw e ->
        exists w', initialState key initialValue w = (Normal initialValue, w')
                   /\ localStorage w' = localStorage w
                   /\ (text <> [] -> console w' = console w ++ [e]))
  /\ (forall e,
        getItem (localStorage w) key = Throw e ->
        initialState key initialValue w
        = (Normal initialValue, mkWindow _ (localStorage w) (console w ++ [e]))).
Proof.
  intros Hempty.
  unfold initialState, try_catch, bind, localStorage_getItem, complete, ret,
    console_error, modify.
  repeat split.
  - destruct (getItem (localStorage w) key) as [[text|]|e].
    + destruct text as [|c text]; cbn [JsString.truthy].
      * eexists. eexists. reflexivity.
      * destruct (JSON_parse (c :: text)); eexists; eexists; reflexivity.
    + eexists. eexists. reflexivity.
    + eexists. eexists. reflexivity.
  - intros text v Hget Hparse. rewrite Hget.
    destruct text as [|c text]; [exfalso; exact (Hempty v Hparse)|].
    cbn [JsString.truthy]. rewrite Hparse. reflexivity.
  - intros Hget. rewrite Hget. reflexivity.
  - intros text e Hget Hparse. rewrite Hget.
    destruct text as [|c text]; cbn [JsString.truthy].
    + exists w. repeat split. congruence.
    + rewrite Hparse. eexists. repeat split.
  - intros e Hget. rewrite Hget. reflexivity.
Qed.

End HookFacts.

(* ------------------------------------------------------------------ *)
(** ** The log: append and clear *)
(* ------------------------------------------------------------------ *)

Section LogFacts.
Context `{Host} `{Json (list LogEntry)}.

Lemma truthy_false (s : js_string) : JsString.truthy s = false <-> s = [].
Proof. destruct s; cbn; split; congruence. Qed.

Lemma truthy_true (s : js_string) : JsString.truthy s = true <-> s <> [].
Proof. destruct s; cbn; split; congruence. Qed.

Lemma logs_setPlusOneLogs (value : SetStateAction (list LogEntry)) (c : Cockpit) :
  logs (setPlusOneLogs value c) = valueToStore value (plusOneLogs c).
Proof.
  unfold logs, setPlusOneLogs. cbn [plusOneLogs].
  apply setValue_storedValue.
Qed.

Lemma logs_addPlusOneLog (now : Clock) (text : js_string) (c : Cockpit) :
  logs (addPlusOneLog now text c)
  = logs c ++ [mkLogEntry (Date_now now) (formattedDate now) text].
Proof.
  unfold addPlusOneLog. rewrite logs_setPlusOneLogs. reflexivity.
Qed.

(** A rejected input changes nothing at all. *)
Lemma handleAddLog_rejects (now : Clock) (c : Cockpit) :
  JsString.trim (newLog c) = [] -> handleAddLog now c = c.
Proof.
  intros Hblank. unfold handleAddLog. rewrite Hblank. reflexivity.
Qed.

(** An accepted input is appended as typed and the text field is emptied. *)
Lemma handleAddLog_appends (now : Clock) (c : Cockpit) :
  JsString.trim (newLog c) <> [] ->
  logs (handleAddLog now c)
  = logs c ++ [mkLogEntry (Date_now now) (formattedDate now) (newLog c)]
  /\ newLog (handleAddLog now c) = [].
Proof.
  intros Htext. unfold handleAddLog.
  apply truthy_true in Htext. rewrite Htext.
  split; [|reflexivity].
  unfold setNewLog, logs. cbn [plusOneLogs].
  apply logs_addPlusOneLog.
Qed.

(** C6: an input that is empty after trimming leaves the log (and the
    whole state) unchanged; an input that is not makes the log exactly one
    entry longer and the new entry's domain is the input; so it is for the
    two-space input and for ["Ran 5k"]. *)
Theorem handleAddLog_append (now : Clock) (c : Cockpit) :
  (JsString.trim (newLog c) = [] ->
     handleAddLog now c = c /\ logs (handleAddLog now c) = logs c)
  /\ (JsString.trim (newLog c) <> [] ->
      exists entry,
        logs (handleAddLog now c) = logs c ++ [entry]
        /\ List.length (logs (handleAddLog now c)) = S (List.length (logs c))
        /\ domain entry = newLog c)
  /\ (newLog c = str "  " -> logs (handleAddLog now c) = logs c)
  /\ (newLog c = str "Ran 5k" ->
      exists entry,
        logs (handleAddLog now c) = logs c ++ [entry]
        /\ List.length (logs (handleAddLog now c)) = S (List.length (logs c))
        /\ domain entry = str "Ran 5k").
Proof.
  assert (Hgrow : JsString.trim (newLog c) <> [] ->
    exists entry,
      logs (handleAddLog now c) = logs c ++ [entry]
      /\ List.length (logs (handleAddLog now c)) = S (List.length (logs c))
      /\ domain entry = newLog c).
  { intros Htext. destruct (handleAddLog_appends now c Htext) as [Hlogs _].
    eexists. split; [exact Hlogs|]. split; [|reflexivity].
    rewrite Hlogs, length_app. cbn. lia. }
  split; [|split; [exact Hgrow|split]].
  - intros Hblank. rewrite (handleAddLog_rejects now c Hblank). split; reflexivity.
  - intros Hin. rewrite handleAddLog_rejects; [reflexivity|].
    rewrite Hin. reflexivity.
  - intros Hin. rewrite <- Hin. apply Hgrow. rewrite Hin. discriminate.
Qed.

(** C10: the accepted input is stored verbatim, outer white space
    included; the earlier entries keep their values and positions and the
    new entry comes last. *)
Theorem handleAddLog_verbatim (now : Clock) (c : Cockpit) :
  JsString.trim (newLog c) <> [] ->
  exists entry,
    logs (handleAddLog now c) = logs c ++ [entry]
    /\ domain entry = newLog c
    /\ (forall i old, nth_error (logs c) i = Some old ->
          nth_error (logs (handleAddLog now c)) i = Some old)
    /\ nth_error (logs (handleAddLog now c)) (List.length (logs c)) = Some entry
    /\ List.last (logs (handleAddLog now c)) entry = entry.
Proof.
  intros Htext. destruct (handleAddLog_appends now c Htext) as [Hlogs _].
  eexists. split; [exact Hlogs|]. rewrite Hlogs.
  split; [reflexivity|]. split; [|split].
  - intros i old Hold. rewrite nth_error_app1; [exact Hold|].
    apply nth_error_Some. congruence.
  - rewrite nth_error_app2 by lia. rewrite Nat.sub_diag. reflexivity.
  - apply last_last.
Qed.

Lemma clearLogs_declined (c : Cockpit) : clearLogs false c = c.
Proof. reflexivity. Qed.

(** C9: clearing, once the user has confirmed, leaves the empty sequence
    whatever the log held; on a log that is already empty the sequence
    stays as it was, whatever the answer. *)
Theorem clearLogs_empties (c : Cockpit) :
  logs (clearLogs true c) = []
  /\ (logs c <> [] -> logs (clearLogs true c) = [])
  /\ (forall answer, logs c = [] -> logs (clearLogs answer c) = logs c).
Proof.
  assert (Hclear : logs (clearLogs true c) = []).
  { unfold clearLogs. rewrite logs_setPlusOneLogs. reflexivity. }
  split; [exact Hclear|]. split; [intros _; exact Hclear|].
  intros [|] Hempty; [rewrite Hclear, Hempty|]; reflexivity.
Qed.

End LogFacts.

Import TestHost.

(** The theorem on the in-memory host: an absent key, the stored text
    ["[]"], and a stored text that is not JSON. *)
Lemma initialState_total_witness :
  let seed := [mkLogEntry 1 (str "Lun 1") (str "Ran 5k")] in
  let stored text := mkWindow TestHost.host [(pilot_logs, text)] [] in
  initialState pilot_logs seed TestHost.empty_window = (Normal seed, TestHost.empty_window)
  /\ initialState pilot_logs seed (stored (str "[]")) = (Normal [], stored (str "[]"))
  /\ fst (initialState pilot_logs seed (stored (str "{oops"))) = Normal seed.
Proof.
  intros seed stored.
  assert (Hempty : forall v : list LogEntry, JSON_parse [] <> Normal v)
    by (intros v; vm_compute; discriminate).
  split; [|split].
  - apply (proj1 (proj2 (proj2
      (initialState_total pilot_logs seed TestHost.empty_window Hempty)))).
    reflexivity.
  - apply (proj1 (proj2
      (initialState_total pilot_logs seed (stored (str "[]")) Hempty)) (str "[]") []);
      reflexivity.
  - destruct (proj1 (proj2 (proj2 (proj2
      (initialState_total pilot_logs seed (stored (str "{oops")) Hempty))))
      (str "{oops") SyntaxError eq_refl eq_refl) as (w' & -> & _).
    reflexivity.
Defined.

(** The theorem on the in-memory host, with two spaces and with
    ["Ran 5k"] in the text field. *)
Lemma handleAddLog_append_witness :
  handleAddLog lundi (cockpit [] (str "  ")) = cockpit [] (str "  ")
  /\ exists entry,
       logs (handleAddLog lundi (cockpit [] (str "Ran 5k"))) = [] ++ [entry]
       /\ domain entry = str "Ran 5k".
Proof.
  split.
  - exact (proj1 (proj1 (handleAddLog_append lundi (cockpit [] (str "  "))) eq_refl)).
  - destruct (proj1 (proj2 (handleAddLog_append lundi (cockpit [] (str "Ran 5k"))))
      ltac:(vm_compute; discriminate)) as (entry & Hlogs & _ & Hdomain).
    exists entry. split; [exact Hlogs | exact Hdomain].
Defined.

(** The theorem with outer white space in the text field: the stored
    domain keeps it. *)
Lemma handleAddLog_verbatim_witness :
  exists entry,
    logs (handleAddLog lundi (cockpit [] (str " Ran 5k  "))) = [entry]
    /\ domain entry = str " Ran 5k  ".
Proof.
  destruct (handleAddLog_verbatim lundi (cockpit [] (str " Ran 5k  "))
    ltac:(vm_compute; discriminate)) as (entry & Hlogs & Hdomain & _).
  exists entry. split; [exact Hlogs | exact Hdomain].
Defined.

(** The theorem on a log of one entry. *)
Lemma clearLogs_empties_witness :
  logs (clearLogs true (cockpit [mkLogEntry 1 (str "Lun 1") (str "Ran 5k")] [])) = [].
Proof.
  apply (proj1 (proj2 (clearLogs_empties
    (cockpit [mkLogEntry 1 (str "Lun 1") (str "Ran 5k")] [])))).
  discriminate.
Defined.

(* ================================================================== *)
(** * Further properties of the code *)
(* ================================================================== *)

(* ------------------------------------------------------------------ *)
(** ** More on the order on numbers *)
(* ------------------------------------------------------------------ *)

Module FloatOrderMore.

Lemma leb_refl (v : float) : is_nan v = false -> (v <=? v) = true.
Proof.
  rewrite FloatOrder.is_nan_Prim2SF, leb_spec. unfold SFleb. intros Hv.
  rewrite FloatOrder.SFcompare_refl by exact Hv. reflexivity.
Qed.

Lemma leb_ltb_false (v w : float) : (v <=? w) = true -> (w <? v) = false.
Proof.
  intros Hle. destruct (w <? v) eqn:Hlt; [|reflexivity].
  rewrite (FloatOrder.ltb_not_leb v w Hlt) in Hle. discriminate.
Qed.

Lemma ltb_leb (v w : float) : (v <? w) = true -> (v <=? w) = true.
Proof.
  rewrite leb_spec, ltb_spec. unfold SFleb, SFltb.
  destruct (SFcompare (Prim2SF v) (Prim2SF w)) as [[]|]; congruence.
Qed.

Lemma not_ltb_leb (v w : float) :
  is_nan v = false -> is_nan w = false -> (v <? w) = false -> (w <=? v) = true.
Proof.
  rewrite !FloatOrder.is_nan_Prim2SF, leb_spec, ltb_spec. unfold SFleb, SFltb.
  intros Hv Hw. rewrite (FloatOrder.SFcompare_antisym (Prim2SF w)).
  destruct (FloatOrder.SFcompare_defined _ _ Hv Hw) as [c ->].
  destruct c; cbn; congruence.
Qed.

Lemma ltb_not_nan_l (v w : float) : (v <? w) = true -> is_nan v = false.
Proof. intros Hlt. exact (FloatOrder.leb_not_nan_l _ _ (ltb_leb _ _ Hlt)). Qed.

Lemma ltb_not_nan_r (v w : float) : (v <? w) = true -> is_nan w = false.
Proof. intros Hlt. exact (FloatOrder.leb_not_nan_r _ _ (ltb_leb _ _ Hlt)). Qed.

(** [NaN] compares false with everything. *)
Lemma nan_leb_l (v w : float) : is_nan v = true -> (v <=? w) = false.
Proof.
  intros Hv. destruct (v <=? w) eqn:Hle; [|reflexivity].
  rewrite (FloatOrder.leb_not_nan_l _ _ Hle) in Hv. discriminate.
Qed.

Lemma nan_ltb_r (v w : float) : is_nan w = true -> (v <? w) = false.
Proof.
  intros Hw. destruct (v <? w) eqn:Hlt; [|reflexivity].
  rewrite (ltb_not_nan_r _ _ Hlt) in Hw. discriminate.
Qed.

(** A chain of steps that never go down does not go down. *)
Lemma chain_up (F : nat -> float) (a b : nat) :
  (a <= b)%nat ->
  is_nan (F a) = false ->
  (forall k, (a <= k < b)%nat -> (F k <=? F (S k)) = true) ->
  (F a <=? F b) = true.
Proof.
  intros Hab Hnan Hstep. induction b as [|b IH].
  - replace a with 0%nat by lia. apply leb_refl. replace 0%nat with a by lia. exact Hnan.
  - destruct (Nat.eq_dec a (S b)) as [->|Hne]; [apply leb_refl; exact Hnan|].
    apply (FloatOrder.leb_trans _ (F b)).
    + apply IH; [lia|]. intros k Hk. apply Hstep. lia.
    + apply Hstep. lia.
Qed.

Lemma chain_down (F : nat -> float) (a b : nat) :
  (a <= b)%nat ->
  is_nan (F a) = false ->
  (forall k, (a <= k < b)%nat -> (F (S k) <=? F k) = true) ->
  (F b <=? F a) = true.
Proof.
  intros Hab Hnan Hstep. induction b as [|b IH].
  - replace a with 0%nat by lia. apply leb_refl. replace 0%nat with a by lia. exact Hnan.
  - destruct (Nat.eq_dec a (S b)) as [->|Hne]; [apply leb_refl; exact Hnan|].
    apply (FloatOrder.leb_trans _ (F b)).
    + apply Hstep. lia.
    + apply IH; [lia|]. intros k Hk. apply Hstep. lia.
Qed.

(** [Math.max] and [Math.min] against the constants of the marker. *)
Lemma Math_max_5 (t : float) :
  is_nan t = false -> Math_max t 5 = if t <? 5 then 5 else t.
Proof.
  intros Ht. unfold Math_max. rewrite Ht.
  change (is_nan 5) with false. change (is_pos_zero 5) with false.
  reflexivity.
Qed.

Lemma Math_min_95 (t : float) :
  is_nan t = false -> Math_min t 95 = if 95 <? t then 95 else t.
Proof.
  intros Ht. unfold Math_min. rewrite Ht.
  change (is_nan 95) with false. change (is_neg_zero 95) with false.
  reflexivity.
Qed.

Lemma Math_max_nan (t c : float) : is_nan t = true -> Math_max t c = nan.
Proof. intros Ht. unfold Math_max. rewrite Ht. reflexivity. Qed.

Lemma Math_min_nan (t c : float) : is_nan t = true -> Math_min t c = nan.
Proof. intros Ht. unfold Math_min. rewrite Ht. reflexivity. Qed.

End FloatOrderMore.

(* ------------------------------------------------------------------ *)
(** ** Reading the trend checks *)
(* ------------------------------------------------------------------ *)

Module TrendFacts.
Import Exhaust Trends ExhaustFacts.

Lemma inner_steps_ok : all_from 100 0 inner_fogs = true.
Proof. vm_compute. reflexivity. Qed.

Lemma fog_steps_ok : all_from 101 0 fog_fogs = true.
Proof. vm_compute. reflexivity. Qed.

Lemma noise_steps_ok : all_from 101 0 noise_fogs = true.
Proof. vm_compute. reflexivity. Qed.

Lemma corners_ok : all_from_idx 101 0 0 corner_fogs = true.
Proof. vm_compute. reflexivity. Qed.

Lemma inner_step (i fg s : nat) :
  (i < 100)%nat -> (fg <= 100)%nat -> (s <= 400)%nat ->
  (mastery_at (counter i) (counter fg) (counter s)
   <=? mastery_at (counter (S i)) (counter fg) (counter s)) = true.
Proof.
  intros Hi Hfg Hs.
  pose proof (counter_below inner_fogs 100 inner_steps_ok i ltac:(lia)) as H1.
  unfold inner_fogs in H1.
  pose proof (counter_below _ 101 H1 fg ltac:(lia)) as H2.
  unfold inner_sums in H2.
  exact (counter_below _ 401 H2 s ltac:(lia)).
Qed.

Lemma fog_step (i fg s : nat) :
  (i <= 100)%nat -> (fg < 100)%nat -> (s <= 400)%nat ->
  (mastery_at (counter i) (counter (S fg)) (counter s)
   <=? mastery_at (counter i) (counter fg) (counter s)) = true.
Proof.
  intros Hi Hfg Hs.
  pose proof (counter_below fog_fogs 101 fog_steps_ok i ltac:(lia)) as H1.
  unfold fog_fogs in H1.
  pose proof (counter_below _ 100 H1 fg ltac:(lia)) as H2.
  unfold fog_sums in H2.
  exact (counter_below _ 401 H2 s ltac:(lia)).
Qed.

Lemma noise_step (i fg s : nat) :
  (i <= 100)%nat -> (fg <= 100)%nat -> (s < 400)%nat ->
  (mastery_at (counter i) (counter fg) (counter (S s))
   <=? mastery_at (counter i) (counter fg) (counter s)) = true.
Proof.
  intros Hi Hfg Hs.
  pose proof (counter_below noise_fogs 101 noise_steps_ok i ltac:(lia)) as H1.
  unfold noise_fogs in H1.
  pose proof (counter_below _ 101 H1 fg ltac:(lia)) as H2.
  unfold noise_sums in H2.
  exact (counter_below _ 400 H2 s ltac:(lia)).
Qed.

Lemma mastery_at_not_nan (i fg s : nat) :
  (i <= 100)%nat -> (fg <= 100)%nat -> (s <= 400)%nat ->
  is_nan (mastery_at (counter i) (counter fg) (counter s)) = false.
Proof.
  intros Hi Hfg Hs.
  pose proof (mastery_at_on_scale i fg s Hi Hfg Hs) as Hon.
  unfold on_scale in Hon. apply andb_true_iff in Hon.
  exact (FloatOrder.leb_not_nan_r _ _ (proj1 Hon)).
Qed.

(** More inner voice, less fog and less external noise: the mastery score
    does not go down. *)
Lemma mastery_at_monotone (i i' fg fg' s s' : nat) :
  (i <= i' <= 100)%nat -> (fg' <= fg <= 100)%nat -> (s' <= s <= 400)%nat ->
  (mastery_at (counter i) (counter fg) (counter s)
   <=? mastery_at (counter i') (counter fg') (counter s')) = true.
Proof.
  intros Hi Hfg Hs.
  apply (FloatOrder.leb_trans _ (mastery_at (counter i') (counter fg) (counter s))).
  - apply (FloatOrderMore.chain_up
             (fun k => mastery_at (counter k) (counter fg) (counter s))); [lia| |].
    + apply mastery_at_not_nan; lia.
    + intros k Hk. apply inner_step; lia.
  - apply (FloatOrder.leb_trans _ (mastery_at (counter i') (counter fg') (counter s))).
    + apply (FloatOrderMore.chain_down
               (fun k => mastery_at (counter i') (counter k) (counter s)));
        [lia| |].
      * apply mastery_at_not_nan; lia.
      * intros k Hk. apply fog_step; lia.
    + apply (FloatOrderMore.chain_down
               (fun k => mastery_at (counter i') (counter fg') (counter k)));
        [lia| |].
      * apply mastery_at_not_nan; lia.
      * intros k Hk. apply noise_step; lia.
Qed.

Lemma corner (i fg s : nat) :
  (i <= 100)%nat -> (fg <= 100)%nat -> (s <= 400)%nat ->
  corner_at i fg s (mastery_at (counter i) (counter fg) (counter s)) = true.
Proof.
  intros Hi Hfg Hs.
  pose proof (counter_idx_below corner_fogs 101 corners_ok i ltac:(lia)) as H1.
  unfold corner_fogs in H1.
  pose proof (counter_idx_below _ 101 H1 fg ltac:(lia)) as H2.
  unfold corner_sums in H2.
  exact (counter_idx_below _ 401 H2 s ltac:(lia)).
Qed.

(** The mastery score of a radar state set by the sliders, in terms of
    positions. *)
Lemma masteryScore_at (i p f m pr fg : Z) :
  (0 <= i <= 100)%Z -> (0 <= p <= 100)%Z -> (0 <= f <= 100)%Z ->
  (0 <= m <= 100)%Z -> (0 <= pr <= 100)%Z -> (0 <= fg <= 100)%Z ->
  masteryScore (radar_of_sliders i p f m pr fg)
  = mastery_at (counter (Z.to_nat i)) (counter (Z.to_nat fg))
      (counter (Z.to_nat (p + m + f + pr))).
Proof.
  intros Hi Hp Hf Hm Hpr Hfg.
  unfold masteryScore, externalNoise, radar_of_sliders.
  cbn [inner peers media family professors fog].
  rewrite sliders_sum by assumption.
  rewrite (slider_counter i), (slider_counter fg) by assumption.
  reflexivity.
Qed.

(** The impact score in terms of what is filled in and counted. *)
Lemma impact_steps_ok (carbs : nat) :
  (carbs <= 3)%nat ->
  impact_step_count carbs 0 = true /\ impact_step_count carbs 1 = true
  /\ impact_step_goal carbs = true
  /\ ((carbs < 3)%nat ->
      impact_step_carbs carbs 0 = true /\ impact_step_carbs carbs 1 = true).
Proof.
  intros Hc.
  do 4 (destruct carbs as [|carbs];
        [repeat split; try (intros _; split); vm_compute; try reflexivity; lia|]).
  lia.
Qed.

Lemma impact_at_not_nan (carbs : nat) (goal : bool) (k : nat) :
  (carbs <= 3)%nat -> (k <= 10)%nat ->
  is_nan (impact_at carbs (if goal then 1 else 0) (counter k)) = false.
Proof.
  intros Hc Hk. pose proof (impact_at_on_scale carbs goal k Hc Hk) as Hon.
  unfold on_scale in Hon. apply andb_true_iff in Hon.
  exact (FloatOrder.leb_not_nan_r _ _ (proj1 Hon)).
Qed.

Lemma impact_at_monotone (carbs carbs' : nat) (goal goal' : bool) (k k' : nat) :
  (carbs <= carbs' <= 3)%nat -> (goal = true -> goal' = true) ->
  (k <= k' <= 10)%nat ->
  (impact_at carbs (if goal then 1 else 0) (counter k)
   <=? impact_at carbs' (if goal' then 1 else 0) (counter k')) = true.
Proof.
  intros Hc Hg Hk.
  apply (FloatOrder.leb_trans _ (impact_at carbs (if goal then 1 else 0) (counter k'))).
  { apply (FloatOrderMore.chain_up
             (fun j => impact_at carbs (if goal then 1 else 0) (counter j))); [lia| |].
    - apply impact_at_not_nan; lia.
    - intros j Hj.
      destruct (impact_steps_ok carbs ltac:(lia)) as (H0 & H1 & _).
      unfold impact_step_count in H0, H1.
      destruct goal.
      + exact (counter_below _ 10 H1 j ltac:(lia)).
      + exact (counter_below _ 10 H0 j ltac:(lia)). }
  apply (FloatOrder.leb_trans _ (impact_at carbs (if goal' then 1 else 0) (counter k'))).
  { destruct goal, goal'.
    - apply FloatOrderMore.leb_refl. apply (impact_at_not_nan carbs true k'); lia.
    - specialize (Hg eq_refl). discriminate.
    - destruct (impact_steps_ok carbs ltac:(lia)) as (_ & _ & Hgoal & _).
      unfold impact_step_goal in Hgoal.
      exact (counter_below _ 11 Hgoal k' ltac:(lia)).
    - apply FloatOrderMore.leb_refl. apply (impact_at_not_nan carbs false k'); lia. }
  apply (FloatOrderMore.chain_up
           (fun c => impact_at c (if goal' then 1 else 0) (counter k'))); [lia| |].
  - apply impact_at_not_nan; lia.
  - intros c Hcc.
    destruct (impact_steps_ok c ltac:(lia)) as (_ & _ & _ & Hcarb).
    destruct (Hcarb ltac:(lia)) as [H0 H1].
    unfold impact_step_carbs in H0, H1.
    destruct goal'.
    + exact (counter_below _ 11 H1 k' ltac:(lia)).
    + exact (counter_below _ 11 H0 k' ltac:(lia)).
Qed.

End TrendFacts.

(* ------------------------------------------------------------------ *)
(** ** How the scores move *)
(* ------------------------------------------------------------------ *)

(** X1: on the sliders, more inner voice, less fog and less of each
    external influence never lower the mastery score. *)
Theorem masteryScore_monotone (i i' p p' f f' m m' pr pr' fg fg' : Z) :
  (0 <= i <= i')%Z -> (i' <= 100)%Z ->
  (0 <= p' <= p)%Z -> (p <= 100)%Z ->
  (0 <= f' <= f)%Z -> (f <= 100)%Z ->
  (0 <= m' <= m)%Z -> (m <= 100)%Z ->
  (0 <= pr' <= pr)%Z -> (pr <= 100)%Z ->
  (0 <= fg' <= fg)%Z -> (fg <= 100)%Z ->
  (masteryScore (radar_of_sliders i p f m pr fg)
   <=? masteryScore (radar_of_sliders i' p' f' m' pr' fg')) = true.
Proof.
  intros Hi Hi' Hp Hp' Hf Hf' Hm Hm' Hpr Hpr' Hfg Hfg'.
  rewrite !TrendFacts.masteryScore_at by lia.
  apply TrendFacts.mastery_at_monotone; lia.
Qed.

(** The theorem between the default radar state and a clearer one. *)
Lemma masteryScore_monotone_witness :
  (masteryScore (radar_of_sliders 30 90 50 70 60 75)
   <=? masteryScore (radar_of_sliders 60 40 50 70 10 20)) = true.
Proof.
  apply masteryScore_monotone; lia.
Defined.

(** X2: on the sliders the mastery score is 10 only with the inner voice
    at 100 and everything else at 0, and it is 0 only with the inner voice
    at 0 and everything else at 100. *)
Theorem masteryScore_corners (i p f m pr fg : Z) :
  (0 <= i <= 100)%Z -> (0 <= p <= 100)%Z -> (0 <= f <= 100)%Z ->
  (0 <= m <= 100)%Z -> (0 <= pr <= 100)%Z -> (0 <= fg <= 100)%Z ->
  let score := masteryScore (radar_of_sliders i p f m pr fg) in
  ((score =? 10) = true
     <-> i = 100%Z /\ p = 0%Z /\ f = 0%Z /\ m = 0%Z /\ pr = 0%Z /\ fg = 0%Z)
  /\ ((score =? 0) = true
     <-> i = 0%Z /\ p = 100%Z /\ f = 100%Z /\ m = 100%Z /\ pr = 100%Z /\ fg = 100%Z).
Proof.
  intros Hi Hp Hf Hm Hpr Hfg score.
  pose proof (TrendFacts.corner (Z.to_nat i) (Z.to_nat fg) (Z.to_nat (p + m + f + pr))
                ltac:(lia) ltac:(lia) ltac:(lia)) as Hc.
  rewrite <- TrendFacts.masteryScore_at in Hc by assumption.
  fold score in Hc. unfold Trends.corner_at in Hc.
  apply andb_true_iff in Hc. destruct Hc as [Htop Hbottom].
  split; split.
  - intros Hten. rewrite Hten in Htop.
    apply andb_true_iff in Htop. destruct Htop as [Htop Hs].
    apply andb_true_iff in Htop. destruct Htop as [Hi' Hfg'].
    apply Nat.eqb_eq in Hs, Hi', Hfg'. lia.
  - intros (-> & -> & -> & -> & -> & ->). reflexivity.
  - intros Hzero. rewrite Hzero in Hbottom.
    apply andb_true_iff in Hbottom. destruct Hbottom as [Hbottom Hs].
    apply andb_true_iff in Hbottom. destruct Hbottom as [Hi' Hfg'].
    apply Nat.eqb_eq in Hs, Hi', Hfg'. lia.
  - intros (-> & -> & -> & -> & -> & ->). reflexivity.
Qed.

(** The theorem on the default radar state: its score is neither 10 nor 0. *)
Lemma masteryScore_corners_witness :
  (masteryScore (radar_of_sliders 30 90 50 70 60 75) =? 10) = true
  <-> 30%Z = 100%Z /\ 90%Z = 0%Z /\ 50%Z = 0%Z /\ 70%Z = 0%Z /\ 60%Z = 0%Z /\ 75%Z = 0%Z.
Proof.
  exact (proj1 (masteryScore_corners 30 90 50 70 60 75
    ltac:(lia) ltac:(lia) ltac:(lia) ltac:(lia) ltac:(lia) ltac:(lia))).
Defined.

(** [Math.min(logCount, 10)] at an integer count. *)
Lemma Math_min_count (n : Z) :
  (0 <= n < 2 ^ 53)%Z ->
  Math_min (of_Z n) 10 = Exhaust.counter (Z.to_nat (Z.min n 10)).
Proof.
  intros Hn. destruct (Z.le_gt_cases n 10) as [Hsmall|Hlarge].
  - rewrite Z.min_l by lia.
    replace (of_Z n) with (Exhaust.counter (Z.to_nat n)).
    + apply ExhaustFacts.Math_min_small. lia.
    + rewrite <- ExhaustFacts.of_nat_counter by lia.
      unfold of_nat. rewrite Z2Nat.id by lia. reflexivity.
  - rewrite Z.min_r by lia.
    rewrite FloatOrder.Math_min_saturates
      by (apply IntegerNumbers.of_Z_ge_10; lia).
    reflexivity.
Qed.

Lemma impactScore_at (g : GoalState) (n : Z) :
  (0 <= n < 2 ^ 53)%Z ->
  impactScore g (of_Z n)
  = Exhaust.impact_at (carbCount g)
      (if (2 <? JsString.length (title g))%nat then 1 else 0)
      (Exhaust.counter (Z.to_nat (Z.min n 10))).
Proof.
  intros Hn. rewrite impactScore_as_impact_at, Math_min_count by exact Hn.
  reflexivity.
Qed.

(** X3: the impact score never drops when more anchors are filled in,
    when the title is set or when the log gets longer. *)
Theorem impactScore_monotone (g g' : GoalState) (n n' : Z) :
  (carbCount g <= carbCount g')%nat ->
  ((2 < JsString.length (title g))%nat -> (2 < JsString.length (title g'))%nat) ->
  (0 <= n <= n')%Z -> (n' < 2 ^ 53)%Z ->
  (impactScore g (of_Z n) <=? impactScore g' (of_Z n')) = true.
Proof.
  intros Hcarbs Htitle Hn Hn'.
  rewrite !impactScore_at by lia.
  apply TrendFacts.impact_at_monotone.
  - pose proof (carbCount_le_3 g'). lia.
  - intros Hset. apply Nat.ltb_lt. apply Htitle. apply Nat.ltb_lt. exact Hset.
  - lia.
Qed.

(** The theorem from an empty goal with two entries to a full one with
    twelve. *)
Lemma impactScore_monotone_witness :
  (impactScore default_goal (of_Z 2) <=? impactScore full_goal (of_Z 12)) = true.
Proof.
  apply impactScore_monotone.
  - vm_compute. lia.
  - intros _. vm_compute. lia.
  - lia.
  - lia.
Defined.

(** X4: with fewer than three log entries the banner is never shown,
    whatever the radar and the goal; with three it can be. *)
Theorem authorization_needs_three_entries (radar : RadarState) (goal : GoalState)
    (entries : list LogEntry) :
  (List.length entries <= 2)%nat ->
  PageMission_authorized radar goal (of_nat (List.length entries)) = false
  /\ PageMission_authorized (radar_of_sliders 100 0 0 0 0 0) full_goal (of_nat 3) = true.
Proof.
  intros Hlen. split; [|reflexivity].
  unfold PageMission_authorized, authorization, calculateMatrix. cbn [x y].
  apply andb_false_intro2.
  apply FloatOrderMore.leb_ltb_false.
  unfold of_nat. rewrite impactScore_at by lia.
  apply (FloatOrder.leb_trans _ (Exhaust.impact_at 3 1 (Exhaust.counter 2)));
    [|reflexivity].
  apply (TrendFacts.impact_at_monotone _ 3 _ true _ 2).
  - pose proof (carbCount_le_3 goal). lia.
  - reflexivity.
  - lia.
Qed.

(** The theorem on a log of two entries and the best radar and goal. *)
Lemma authorization_needs_three_entries_witness :
  PageMission_authorized (radar_of_sliders 100 0 0 0 0 0) full_goal
    (of_nat (List.length [TestHost2.ran_5k; TestHost2.ran_5k])) = false.
Proof.
  apply (authorization_needs_three_entries _ _ [TestHost2.ran_5k; TestHost2.ran_5k]).
  cbn. lia.
Defined.

(** X5: on the sliders, with the inner voice at 40 or less, or with the
    fog at 100, the banner is never shown, whatever the goal and the log;
    at inner voice 41, and at fog 99, it can be. *)
Theorem authorization_needs_inner_voice (i p f m pr fg : Z) (goal : GoalState)
    (logCount : float) :
  (0 <= i <= 100)%Z -> (0 <= p <= 100)%Z -> (0 <= f <= 100)%Z ->
  (0 <= m <= 100)%Z -> (0 <= pr <= 100)%Z -> (0 <= fg <= 100)%Z ->
  (i <= 40 \/ fg = 100)%Z ->
  PageMission_authorized (radar_of_sliders i p f m pr fg) goal logCount = false
  /\ PageMission_authorized (radar_of_sliders 41 0 0 0 0 0) full_goal 10 = true
  /\ PageMission_authorized (radar_of_sliders 100 0 0 0 0 99) full_goal 10 = true.
Proof.
  intros Hi Hp Hf Hm Hpr Hfg Hlow. split; [|split; reflexivity].
  unfold PageMission_authorized, authorization, calculateMatrix. cbn [x y].
  apply andb_false_intro1.
  apply FloatOrderMore.leb_ltb_false.
  rewrite TrendFacts.masteryScore_at by assumption.
  destruct Hlow as [Hlow|Hlow].
  - apply (FloatOrder.leb_trans _
             (Exhaust.mastery_at (Exhaust.counter 40) (Exhaust.counter 0)
                (Exhaust.counter 0))); [|reflexivity].
    apply TrendFacts.mastery_at_monotone; lia.
  - apply (FloatOrder.leb_trans _
             (Exhaust.mastery_at (Exhaust.counter 100) (Exhaust.counter 100)
                (Exhaust.counter 0))); [|reflexivity].
    apply TrendFacts.mastery_at_monotone; lia.
Qed.

(** The theorem on the default radar state (inner voice 30). *)
Lemma authorization_needs_inner_voice_witness :
  PageMission_authorized default_radar full_goal 10 = false.
Proof.
  apply (authorization_needs_inner_voice 30 90 50 70 60 75 full_goal 10); lia.
Defined.

(* ------------------------------------------------------------------ *)
(** ** The marker of the matrix *)
(* ------------------------------------------------------------------ *)

(** X6: for a score whose tenfold is a number, the marker stays between
    5% and 95%: it is at the tenfold of the score inside that range, at 5%
    below it and at 95% above it. *)
Theorem markerPosition_clamped (v : float) :
  is_nan (v * 10) = false ->
  let position := markerPosition v in
  (5 <=? position) = true /\ (position <=? 95) = true
  /\ ((5 <=? v * 10) = true -> (v * 10 <=? 95) = true -> position = v * 10)
  /\ ((v * 10 <? 5) = true -> position = 5)
  /\ ((95 <? v * 10) = true -> position = 95).
Proof.
  intros Hnan position. subst position. unfold markerPosition.
  set (t := v * 10) in *.
  rewrite (FloatOrderMore.Math_max_5 t Hnan).
  assert (H5 : is_nan 5 = false) by reflexivity.
  assert (H95 : is_nan 95 = false) by reflexivity.
  destruct (t <? 5) eqn:Hlow.
  - change (Math_min 5 95) with 5.
    repeat split; try reflexivity.
    + intros Hge _. rewrite (FloatOrderMore.leb_ltb_false _ _ Hge) in Hlow. discriminate.
    + intros Hhigh. exfalso.
      pose proof (FloatOrder.leb_trans _ _ _
                    (FloatOrderMore.ltb_leb _ _ Hhigh) (FloatOrderMore.ltb_leb _ _ Hlow)) as Habs.
      vm_compute in Habs. discriminate.
  - pose proof (FloatOrderMore.not_ltb_leb t 5 Hnan H5 Hlow) as Hge.
    rewrite (FloatOrderMore.Math_min_95 t Hnan).
    destruct (95 <? t) eqn:Hhigh.
    + repeat split; try reflexivity.
      * intros _ Hle. rewrite (FloatOrderMore.leb_ltb_false _ _ Hle) in Hhigh. discriminate.
      * discriminate.
    + pose proof (FloatOrderMore.not_ltb_leb 95 t H95 Hnan Hhigh) as Hle.
      repeat split; try assumption; try reflexivity; discriminate.
Qed.

(** The theorem at the scores 7, 0.2 and 9.9. *)
Lemma markerPosition_clamped_witness :
  markerPosition 7 = 70 /\ markerPosition 0.2 = 5 /\ markerPosition 9.9 = 95.
Proof.
  split; [|split].
  - exact (proj1 (proj2 (proj2 (markerPosition_clamped 7 eq_refl))) eq_refl eq_refl).
  - exact (proj1 (proj2 (proj2 (proj2 (markerPosition_clamped 0.2 eq_refl)))) eq_refl).
  - exact (proj2 (proj2 (proj2 (proj2 (markerPosition_clamped 9.9 eq_refl)))) eq_refl).
Defined.

(* ------------------------------------------------------------------ *)
(** ** More on the fog classification *)
(* ------------------------------------------------------------------ *)

Lemma status_cases (data : RadarState) :
  (fog data <=? 30) = true /\ status (analyzeSignal data) = OPTIMAL
  \/ (fog data <=? 30) = false /\ (fog data <=? 70) = true
     /\ status (analyzeSignal data) = INTERMEDIAIRE
  \/ (fog data <=? 30) = false /\ (fog data <=? 70) = false
     /\ status (analyzeSignal data) = CRITIQUE.
Proof.
  unfold analyzeSignal.
  destruct (fog data <=? 30); [left; split; reflexivity|].
  destruct (fog data <=? 70); right; [left|right]; repeat split; reflexivity.
Qed.

(** X7: the status never gets less alarming when the fog rises. *)
Theorem analyzeSignal_monotone (data data' : RadarState) :
  (fog data <=? fog data') = true ->
  (severity (status (analyzeSignal data))
   <= severity (status (analyzeSignal data')))%nat.
Proof.
  intros Hle.
  destruct (status_cases data') as [[H30' ->]|[(H30' & H70' & ->)|(H30' & H70' & ->)]];
    destruct (status_cases data) as [[H30 ->]|[(H30 & H70 & ->)|(H30 & H70 & ->)]];
    cbn [severity]; try lia; exfalso.
  - rewrite (FloatOrder.leb_trans _ _ _ Hle H30') in H30. discriminate.
  - rewrite (FloatOrder.leb_trans _ _ _ Hle H30') in H30. discriminate.
  - rewrite (FloatOrder.leb_trans _ _ _ Hle H70') in H70. discriminate.
Qed.

(** The theorem from fog 30 to fog 75. *)
Lemma analyzeSignal_monotone_witness :
  (severity (status (analyzeSignal (radar_of_sliders 30 90 50 70 60 30)))
   <= severity (status (analyzeSignal default_radar)))%nat.
Proof.
  apply analyzeSignal_monotone. reflexivity.
Defined.

(** X8: a fog that is not a number is classified CRITIQUE; a score that is
    not a number never shows the banner, and its marker has no position. *)
Theorem not_a_number_is_safe :
  (forall data, is_nan (fog data) = true -> status (analyzeSignal data) = CRITIQUE)
  /\ (forall p, is_nan (x p) = true \/ is_nan (y p) = true -> authorization p = false)
  /\ (forall v, is_nan (v * 10) = true -> is_nan (markerPosition v) = true).
Proof.
  split; [|split].
  - intros data Hnan. unfold analyzeSignal.
    rewrite !(FloatOrderMore.nan_leb_l _ _ Hnan). reflexivity.
  - intros p [Hnan|Hnan]; unfold authorization.
    + rewrite (FloatOrderMore.nan_ltb_r _ _ Hnan). reflexivity.
    + rewrite (FloatOrderMore.nan_ltb_r _ _ Hnan). apply andb_false_r.
  - intros v Hnan. unfold markerPosition.
    rewrite (FloatOrderMore.Math_max_nan _ _ Hnan). reflexivity.
Qed.

(** The theorem on a radar state whose fog is [NaN]. *)
Lemma not_a_number_is_safe_witness :
  status (analyzeSignal (mkRadar 30 90 50 70 60 nan)) = CRITIQUE.
Proof.
  exact (proj1 not_a_number_is_safe (mkRadar 30 90 50 70 60 nan) eq_refl).
Defined.

(* ------------------------------------------------------------------ *)
(** ** More on the local-storage hook *)
(* ------------------------------------------------------------------ *)

Section HookMore.
Context `{Host} {T : Type} `{Json T}.

Lemma initialState_reads (key : js_string) (initialValue : T) (w : Window)
    (text : js_string) (v : T) :
  getItem (localStorage w) key = Normal (Some text) ->
  text <> [] ->
  JSON_parse text = Normal v ->
  initialState key initialValue w = (Normal v, w).
Proof.
  intros Hget Htext Hparse.
  unfold initialState, try_catch, bind, localStorage_getItem, complete.
  rewrite Hget. destruct text as [|c text]; [congruence|].
  cbn [JsString.truthy]. rewrite Hparse. reflexivity.
Qed.

Lemma setValue_setItem_throws (key : js_string) (value : SetStateAction T)
    (h : Hook T) (text : js_string) (e : js_error) :
  JSON_stringify (valueToStore value h) = Normal text ->
  setItem (localStorage (window h)) key text = Throw e ->
  setValue key value h
  = (Normal tt,
     mkHook (valueToStore value h)
       (mkWindow _ (localStorage (window h)) (console (window h) ++ [e]))).
Proof.
  intros Htext Hset.
  unfold setValue, try_catch, bind, get, setStoredValue, modify, complete,
    in_window, localStorage_setItem, console_error.
  cbn [window storedValue]. rewrite Htext. cbn. rewrite Hset. reflexivity.
Qed.

Lemma setValue_stringify_throws (key : js_string) (value : SetStateAction T)
    (h : Hook T) (e : js_error) :
  JSON_stringify (valueToStore value h) = Throw e ->
  setValue key value h
  = (Normal tt,
     mkHook (valueToStore value h)
       (mkWindow _ (localStorage (window h)) (console (window h) ++ [e]))).
Proof.
  intros Htext.
  unfold setValue, try_catch, bind, get, setStoredValue, modify, complete,
    in_window, console_error.
  cbn [window storedValue]. rewrite Htext. reflexivity.
Qed.

(** X9: when the write to storage is refused, or the value cannot be
    serialised, [setValue] still completes normally: the React state holds
    the new value, the storage is untouched and the error is on the
    console. *)
Theorem setValue_survives_failed_write (key : js_string) (value : SetStateAction T)
    (h : Hook T) (e : js_error) :
  (exists text, JSON_stringify (valueToStore value h) = Normal text
                /\ setItem (localStorage (window h)) key text = Throw e)
  \/ JSON_stringify (valueToStore value h) = Throw e ->
  let h' := snd (setValue key value h) in
  fst (setValue key value h) = Normal tt
  /\ storedValue h' = valueToStore value h
  /\ localStorage (window h') = localStorage (window h)
  /\ console (window h') = console (window h) ++ [e].
Proof.
  intros [(text & Htext & Hset)|Htext] h'; subst h'.
  - rewrite (setValue_setItem_throws key value h text e Htext Hset).
    repeat split.
  - rewrite (setValue_stringify_throws key value h e Htext). repeat split.
Qed.

(** X10: a value written by [setValue] is the value the next start reads
    back, whatever the default, provided the storage keeps what it is
    given and the text parses back to the value. *)
Theorem setValue_then_reload (key : js_string) (value : SetStateAction T)
    (h : Hook T) (text : js_string) (st : Storage) (initialValue : T) :
  JSON_stringify (valueToStore value h) = Normal text ->
  setItem (localStorage (window h)) key text = Normal st ->
  getItem st key = Normal (Some text) ->
  text <> [] ->
  JSON_parse text = Normal (valueToStore value h) ->
  let h' := snd (setValue key value h) in
  initialState key initialValue (window h')
  = (Normal (storedValue h'), window h').
Proof.
  intros Htext Hset Hget Hne Hparse h'. subst h'.
  rewrite (setValue_persists key value h text st Htext Hset).
  cbn [snd storedValue window].
  apply (initialState_reads key initialValue _ text); assumption.
Qed.

Lemma setValue_of_render_storedValue (key : js_string) (read : T)
    (value : SetStateAction T) (h : Hook T) :
  storedValue (snd (setValue_of_render key read value h))
  = match value with Updater f => f read | Value v => v end.
Proof.
  unfold setValue_of_render, try_catch, bind, setStoredValue, modify, complete,
    in_window, localStorage_setItem, console_error.
  cbn [window storedValue].
  destruct (JSON_stringify _) as [text|e]; cbn; [|reflexivity].
  destruct (setItem _ key text) as [st|e]; reflexivity.
Qed.

(** [setValue], called once per render, is the closure of that render. *)
Lemma setValue_of_current_render (key : js_string) (value : SetStateAction T)
    (h : Hook T) :
  setValue key value h = setValue_of_render key (storedValue h) value h.
Proof. reflexivity. Qed.

(** X11: two updater calls made from one render do not chain: both start
    from the value that render read, so the second overwrites the first;
    calls from successive renders do chain. *)
Theorem updaters_of_one_render_do_not_chain (key : js_string) (f g : T -> T)
    (h : Hook T) :
  let read := storedValue h in
  storedValue
    (snd (setValue_of_render key read (Updater g)
            (snd (setValue_of_render key read (Updater f) h))))
  = g read
  /\ storedValue (snd (setValue key (Updater g) (snd (setValue key (Updater f) h))))
     = g (f read).
Proof.
  intros read. split.
  - apply setValue_of_render_storedValue.
  - rewrite setValue_storedValue. cbn [valueToStore].
    rewrite setValue_storedValue. reflexivity.
Qed.

End HookMore.

(* ------------------------------------------------------------------ *)
(** ** Single-key updates *)
(* ------------------------------------------------------------------ *)

Lemma radar_get_with (key key' : RadarKey) (val : float) (r : RadarState) :
  radar_get key' (radar_with key val r)
  = if match key, key' with
       | key_inner, key_inner | key_peers, key_peers | key_family, key_family
       | key_media, key_media | key_professors, key_professors
       | key_fog, key_fog => true
       | _, _ => false
       end
    then val else radar_get key' r.
Proof. destruct key, key'; reflexivity. Qed.

Lemma goal_get_with_same (key : GoalKey) (val : js_string) (g : GoalState) :
  goal_get key (goal_with key val g) = val.
Proof. destruct key; reflexivity. Qed.

Lemma goal_get_with_other (key key' : GoalKey) (val : js_string) (g : GoalState) :
  key' <> key -> goal_get key' (goal_with key val g) = goal_get key' g.
Proof. destruct key, key'; intros Hne; try reflexivity; congruence. Qed.

Section UpdateFacts.
Context `{Host} `{Json RadarState} `{Json GoalState} `{Json CrisisState}.

Lemma storedValue_updateRadar (key : RadarKey) (val : float) (h : Hook RadarState) :
  storedValue (updateRadar key val h) = radar_with key val (storedValue h).
Proof. unfold updateRadar. rewrite setValue_storedValue. reflexivity. Qed.

Lemma storedValue_updateGoal (key : GoalKey) (val : js_string) (h : Hook GoalState) :
  storedValue (updateGoal key val h) = goal_with key val (storedValue h).
Proof. unfold updateGoal. rewrite setValue_storedValue. reflexivity. Qed.

Lemma storedValue_updateCrisis (key : CrisisKey) (val : js_string)
    (h : Hook CrisisState) :
  storedValue (updateCrisis key val h) = crisis_with key val (storedValue h).
Proof. unfold updateCrisis. rewrite setValue_storedValue. reflexivity. Qed.

(** X12: moving one slider sets that field of the radar state and leaves
    the five others as they were, whether or not the write to storage
    succeeds. *)
Theorem updateRadar_sets_only_key (key : RadarKey) (val : float)
    (h : Hook RadarState) :
  radar_get key (storedValue (updateRadar key val h)) = val
  /\ (forall key', key' <> key ->
        radar_get key' (storedValue (updateRadar key val h))
        = radar_get key' (storedValue h)).
Proof.
  rewrite storedValue_updateRadar. split.
  - rewrite radar_get_with. destruct key; reflexivity.
  - intros key' Hne. rewrite radar_get_with.
    destruct key, key'; try reflexivity; congruence.
Qed.

(** X13: updates of two different sliders give the same radar state in
    either order, and of two updates of one slider the last one stands. *)
Theorem updateRadar_order (key key' : RadarKey) (val val' : float)
    (h : Hook RadarState) :
  (key <> key' ->
     storedValue (updateRadar key val (updateRadar key' val' h))
     = storedValue (updateRadar key' val' (updateRadar key val h)))
  /\ storedValue (updateRadar key val (updateRadar key val' h))
     = storedValue (updateRadar key val h).
Proof.
  rewrite !storedValue_updateRadar. split.
  - intros Hne. destruct key, key'; try reflexivity; congruence.
  - destruct key; reflexivity.
Qed.

(** X14: the fog status only follows the fog slider, and the external
    noise only follows the four external sliders. *)
Theorem updateRadar_readings (key : RadarKey) (val : float) (h : Hook RadarState) :
  (key <> key_fog ->
     analyzeSignal (storedValue (updateRadar key val h))
     = analyzeSignal (storedValue h))
  /\ (key = key_inner \/ key = key_fog ->
      externalNoise (storedValue (updateRadar key val h))
      = externalNoise (storedValue h)).
Proof.
  rewrite storedValue_updateRadar. split.
  - intros Hne. destruct key; try reflexivity; congruence.
  - intros [->| ->]; reflexivity.
Qed.

(** X15: editing one field of the goal sets that field and leaves the
    four others; editing the date never changes the impact score. *)
Theorem updateGoal_sets_only_key (key : GoalKey) (val : js_string)
    (h : Hook GoalState) :
  goal_get key (storedValue (updateGoal key val h)) = val
  /\ (forall key', key' <> key ->
        goal_get key' (storedValue (updateGoal key val h))
        = goal_get key' (storedValue h))
  /\ (key = key_date ->
      forall logCount,
        impactScore (storedValue (updateGoal key val h)) logCount
        = impactScore (storedValue h) logCount).
Proof.
  rewrite storedValue_updateGoal. split; [|split].
  - apply goal_get_with_same.
  - intros key' Hne. apply goal_get_with_other. exact Hne.
  - intros -> logCount. reflexivity.
Qed.

(** X16: editing one of the two crisis anchors sets it and leaves the
    other. *)
Theorem updateCrisis_sets_only_key (key : CrisisKey) (val : js_string)
    (h : Hook CrisisState) :
  crisis_get key (storedValue (updateCrisis key val h)) = val
  /\ (forall key', key' <> key ->
        crisis_get key' (storedValue (updateCrisis key val h))
        = crisis_get key' (storedValue h)).
Proof.
  rewrite storedValue_updateCrisis. split.
  - destruct key; reflexivity.
  - intros key' Hne. destruct key, key'; try reflexivity; congruence.
Qed.

End UpdateFacts.

(* ------------------------------------------------------------------ *)
(** ** More on the log *)
(* ------------------------------------------------------------------ *)

Lemma ids_increasing_app_last (l : list LogEntry) (e : LogEntry) :
  ids_increasing l -> (forall e', In e' l -> (id e' < id e)%Z) ->
  ids_increasing (l ++ [e]).
Proof.
  induction l as [|a l IH]; intros Hl Hlast; cbn [app ids_increasing].
  - split; [intros e' []|exact I].
  - destruct Hl as [Ha Hl]. split.
    + intros e' Hin. apply in_app_or in Hin. destruct Hin as [Hin|[<-|[]]].
      * apply Ha. exact Hin.
      * apply Hlast. left. reflexivity.
    + apply IH; [exact Hl|]. intros e' Hin. apply Hlast. right. exact Hin.
Qed.

Lemma ids_increasing_NoDup (l : list LogEntry) :
  ids_increasing l -> NoDup (map id l).
Proof.
  induction l as [|a l IH]; intros Hl; cbn [map]; [constructor|].
  destruct Hl as [Ha Hl]. constructor; [|apply IH; exact Hl].
  intros Hin. apply in_map_iff in Hin. destruct Hin as (e' & Heq & Hin).
  specialize (Ha e' Hin). lia.
Qed.

Section LogMore.
Context `{Host} `{Json (list LogEntry)}.

Lemma trim_empty : JsString.trim [] = [].
Proof. reflexivity. Qed.

(** X17: a second click on the plus button, with nothing typed in
    between, adds nothing: the first click emptied the text field. *)
Theorem handleAddLog_twice (now now' : Clock) (c : Cockpit) :
  handleAddLog now' (handleAddLog now c) = handleAddLog now c.
Proof.
  destruct (JsString.trim (newLog c)) as [|u rest] eqn:Htrim.
  - rewrite (handleAddLog_rejects now c Htrim).
    apply handleAddLog_rejects. exact Htrim.
  - assert (Htext : JsString.trim (newLog c) <> []) by (rewrite Htrim; discriminate).
    destruct (handleAddLog_appends now c Htext) as [_ Hfield].
    apply handleAddLog_rejects. rewrite Hfield. apply trim_empty.
Qed.

Lemma logs_setNewLog (text : js_string) (c : Cockpit) :
  logs (setNewLog text c) = logs c.
Proof. reflexivity. Qed.

Lemma step_grows (c : Cockpit) (e : CockpitEvent) :
  is_confirmed_clear e = false ->
  exists added,
    logs (step c e) = logs c ++ added
    /\ (List.length added <= if is_click_add e then 1 else 0)%nat.
Proof.
  intros Hkeep. destruct e as [text|now|[|]]; cbn [step is_click_add].
  - exists []. rewrite logs_setNewLog, app_nil_r. split; [reflexivity|cbn; lia].
  - destruct (JsString.trim (newLog c)) as [|u rest] eqn:Htrim.
    + exists []. rewrite (handleAddLog_rejects now c Htrim), app_nil_r.
      split; [reflexivity|cbn; lia].
    + assert (Htext : JsString.trim (newLog c) <> []) by (rewrite Htrim; discriminate).
      destruct (handleAddLog_appends now c Htext) as [Hlogs _].
      eexists. split; [exact Hlogs|cbn; lia].
  - discriminate.
  - exists []. rewrite app_nil_r. split; [reflexivity|cbn; lia].
Qed.

(** X18: as long as no clearing is confirmed, whatever is typed and
    clicked, the entries already in the log stay where they are and the log
    grows by at most one entry per click on the plus button. *)
Theorem run_without_clear_grows (events : list CockpitEvent) (c : Cockpit) :
  forallb (fun e => negb (is_confirmed_clear e)) events = true ->
  exists added,
    logs (run events c) = logs c ++ added
    /\ (List.length added <= List.length (filter is_click_add events))%nat.
Proof.
  revert c. induction events as [|e events IH]; intros c Hkeep.
  - exists []. rewrite app_nil_r. split; [reflexivity|cbn; lia].
  - cbn [forallb] in Hkeep. apply andb_true_iff in Hkeep.
    destruct Hkeep as [He Hkeep]. apply negb_true_iff in He.
    destruct (step_grows c e He) as (first & Hfirst & Hlen).
    destruct (IH (step c e) Hkeep) as (others & Hothers & Hlen').
    exists (first ++ others). unfold run in *. cbn [fold_left filter].
    rewrite Hothers, Hfirst, app_assoc. split; [reflexivity|].
    rewrite length_app. destruct (is_click_add e); cbn [List.length]; lia.
Qed.

(** X19: when the identifiers in the log increase and the clock is past
    all of them, they still increase after the click, and so no two
    entries share an identifier. *)
Theorem handleAddLog_keeps_ids_increasing (now : Clock) (c : Cockpit) :
  ids_increasing (logs c) ->
  (forall e, In e (logs c) -> (id e < Date_now now)%Z) ->
  ids_increasing (logs (handleAddLog now c))
  /\ NoDup (map id (logs (handleAddLog now c))).
Proof.
  intros Hsorted Hpast.
  assert (Hnew : ids_increasing (logs (handleAddLog now c))).
  { destruct (JsString.trim (newLog c)) as [|u rest] eqn:Htrim.
    - rewrite (handleAddLog_rejects now c Htrim). exact Hsorted.
    - assert (Htext : JsString.trim (newLog c) <> []) by (rewrite Htrim; discriminate).
      destruct (handleAddLog_appends now c Htext) as [-> _].
      apply ids_increasing_app_last; [exact Hsorted|exact Hpast]. }
  split; [exact Hnew|]. apply ids_increasing_NoDup. exact Hnew.
Qed.

(** X20: two entries added within one millisecond get the same
    identifier. *)
Theorem same_millisecond_same_id (now : Clock) (text text' : js_string)
    (c : Cockpit) :
  JsString.trim text <> [] -> JsString.trim text' <> [] ->
  ~ NoDup (map id (logs
      (run [TypeText text; ClickAdd now; TypeText text'; ClickAdd now] c))).
Proof.
  intros Htext Htext'.
  unfold run. cbn [fold_left step].
  set (c1 := handleAddLog now (setNewLog text c)).
  destruct (handleAddLog_appends now (setNewLog text' c1) Htext') as [-> _].
  rewrite logs_setNewLog. subst c1.
  destruct (handleAddLog_appends now (setNewLog text c) Htext) as [-> _].
  rewrite logs_setNewLog, <- app_assoc, map_app. cbn [app map id].
  intros Hnodup. apply NoDup_app_remove_l in Hnodup.
  inversion Hnodup as [|? ? Hnotin _]. apply Hnotin. left. reflexivity.
Qed.

(** X21: the history on screen shows the entry just added first and the
    older ones after it, in the order they had; a rejected click leaves it
    as it is. *)
Theorem displayed_newest_first (now : Clock) (c : Cockpit) :
  (JsString.trim (newLog c) <> [] ->
     displayed (handleAddLog now c)
     = mkLogEntry (Date_now now) (formattedDate now) (newLog c) :: displayed c)
  /\ (JsString.trim (newLog c) = [] -> displayed (handleAddLog now c) = displayed c).
Proof.
  unfold displayed. split.
  - intros Htext. destruct (handleAddLog_appends now c Htext) as [-> _].
    apply rev_unit.
  - intros Hblank. rewrite (handleAddLog_rejects now c Hblank). reflexivity.
Qed.

End LogMore.

(** What the log and the text field become does not depend on the
    window. *)
Lemma step_ignores_window (H1 H2 : Host)
    (J1 : @Json (list LogEntry)) (J2 : @Json (list LogEntry))
    (c1 : @Cockpit H1) (c2 : @Cockpit H2) (e : CockpitEvent) :
  @toLowerCase H1 = @toLowerCase H2 -> @toUpperCase H1 = @toUpperCase H2 ->
  logs c1 = logs c2 -> newLog c1 = newLog c2 ->
  logs (@step H1 J1 c1 e) = logs (@step H2 J2 c2 e)
  /\ newLog (@step H1 J1 c1 e) = newLog (@step H2 J2 c2 e).
Proof.
  intros Hlower Hupper Hlogs Hfield.
  assert (Hdate : forall now, @formattedDate H1 now = @formattedDate H2 now).
  { intros now. unfold formattedDate. rewrite Hlower, Hupper. reflexivity. }
  destruct e as [text|now|[|]]; cbn [step].
  - split; [exact Hlogs|reflexivity].
  - unfold handleAddLog. rewrite Hfield.
    destruct (JsString.truthy (JsString.trim (newLog c2))).
    + split; [|reflexivity].
      rewrite !logs_setNewLog, !logs_addPlusOneLog, Hlogs, Hdate. reflexivity.
    + split; assumption.
  - unfold clearLogs. rewrite !logs_setPlusOneLogs.
    split; [reflexivity|exact Hfield].
  - split; assumption.
Qed.

(** X22: the log and the text field after any sequence of events are the
    same on any two browsers that agree on the case of letters, whatever
    their storage holds and whether or not it accepts writes. *)
Theorem storage_never_shapes_the_log (H1 H2 : Host)
    (J1 : @Json (list LogEntry)) (J2 : @Json (list LogEntry))
    (events : list CockpitEvent) (c1 : @Cockpit H1) (c2 : @Cockpit H2) :
  @toLowerCase H1 = @toLowerCase H2 -> @toUpperCase H1 = @toUpperCase H2 ->
  logs c1 = logs c2 -> newLog c1 = newLog c2 ->
  logs (@run H1 J1 events c1) = logs (@run H2 J2 events c2)
  /\ newLog (@run H1 J1 events c1) = newLog (@run H2 J2 events c2).
Proof.
  intros Hlower Hupper. revert c1 c2.
  induction events as [|e events IH]; intros c1 c2 Hlogs Hfield.
  - split; assumption.
  - unfold run in *. cbn [fold_left].
    destruct (step_ignores_window H1 H2 J1 J2 c1 c2 e Hlower Hupper Hlogs Hfield)
      as [Hlogs' Hfield'].
    apply IH; assumption.
Qed.

(* ------------------------------------------------------------------ *)
(** ** The theorems above, run on concrete hosts *)
(* ------------------------------------------------------------------ *)

Import TestHost2.

(** The hook on a full store: the entry is in the state, not in the
    storage, and the refusal is on the console. *)
Lemma setValue_survives_failed_write_witness :
  let h := @mkHook full_disk (list LogEntry) [] (@mkWindow full_disk [] []) in
  let h' := snd (@setValue full_disk _ json_codec pilot_logs (Value [ran_5k]) h) in
  storedValue h' = [ran_5k]
  /\ localStorage (window h') = []
  /\ console (window h') = [QuotaExceededError].
Proof.
  intros h h'.
  exact (proj2 (@setValue_survives_failed_write full_disk _ json_codec
    pilot_logs (Value [ran_5k]) h QuotaExceededError
    (or_introl (ex_intro _ (encode [ran_5k]) (conj eq_refl eq_refl))))).
Defined.

(** The hook on the in-memory store: one entry written, then read back
    over an empty default. *)
Lemma setValue_then_reload_witness :
  let h := @mkHook host (list LogEntry) [] empty_window in
  let h' := snd (@setValue host _ json_codec pilot_logs (Value [ran_5k]) h) in
  @initialState host _ json_codec pilot_logs [] (window h')
  = (Normal [ran_5k], window h').
Proof.
  intros h h'.
  apply (@setValue_then_reload host _ json_codec pilot_logs (Value [ran_5k]) h
           (encode [ran_5k]) [(pilot_logs, encode [ran_5k])] []).
  - reflexivity.
  - reflexivity.
  - reflexivity.
  - discriminate.
  - reflexivity.
Defined.

(** Moving the fog slider of the default radar state to 20. *)
Lemma updateRadar_sets_only_key_witness :
  let h := @mkHook host RadarState default_radar empty_window in
  inner (storedValue (@updateRadar host (json_refuse _) key_fog 20 h)) = inner default_radar.
Proof.
  intros h.
  apply (proj2 (@updateRadar_sets_only_key host (json_refuse _) key_fog 20 h) key_inner).
  discriminate.
Defined.

Lemma updateRadar_order_witness :
  let h := @mkHook host RadarState default_radar empty_window in
  storedValue (@updateRadar host (json_refuse _) key_fog 20
                 (@updateRadar host (json_refuse _) key_inner 80 h))
  = storedValue (@updateRadar host (json_refuse _) key_inner 80
                   (@updateRadar host (json_refuse _) key_fog 20 h)).
Proof.
  intros h.
  apply (proj1 (@updateRadar_order host (json_refuse _) key_fog key_inner 20 80 h)).
  discriminate.
Defined.

Lemma updateRadar_readings_witness :
  let h := @mkHook host RadarState default_radar empty_window in
  status (analyzeSignal (storedValue (@updateRadar host (json_refuse _) key_peers 0 h)))
  = CRITIQUE.
Proof.
  intros h.
  rewrite (proj1 (@updateRadar_readings host (json_refuse _) key_peers 0 h));
    [reflexivity|discriminate].
Defined.

Lemma updateGoal_sets_only_key_witness :
  let h := @mkHook host GoalState full_goal empty_window in
  title (storedValue (@updateGoal host (json_refuse _) key_date (str "1 Juin") h))
  = str "Marathon"
  /\ impactScore (storedValue (@updateGoal host (json_refuse _) key_date (str "1 Juin") h)) 10
     = 10.
Proof.
  intros h. split.
  - apply (proj1 (proj2 (@updateGoal_sets_only_key host (json_refuse _)
             key_date (str "1 Juin") h)) key_title).
    discriminate.
  - rewrite (proj2 (proj2 (@updateGoal_sets_only_key host (json_refuse _)
               key_date (str "1 Juin") h)) eq_refl 10).
    reflexivity.
Defined.

Lemma updateCrisis_sets_only_key_witness :
  let h := @mkHook host CrisisState default_crisis empty_window in
  booster (storedValue (@updateCrisis host (json_refuse _) key_supportPerson (str "Sam") h))
  = [].
Proof.
  intros h.
  apply (proj2 (@updateCrisis_sets_only_key host (json_refuse _)
           key_supportPerson (str "Sam") h) key_booster).
  discriminate.
Defined.

(** Typing, three clicks and a declined clearing on a log of one entry. *)
Lemma run_without_clear_grows_witness :
  exists added,
    logs (@run host json_codec
            [TypeText (str "Read"); ClickAdd lundi; ClickAdd lundi;
             ClickClear false; TypeText (str "  "); ClickAdd lundi]
            (cockpit [ran_5k] []))
    = [ran_5k] ++ added
    /\ (List.length added <= 3)%nat.
Proof.
  exact (@run_without_clear_grows host json_codec
    [TypeText (str "Read"); ClickAdd lundi; ClickAdd lundi;
     ClickClear false; TypeText (str "  "); ClickAdd lundi]
    (cockpit [ran_5k] []) eq_refl).
Defined.

Lemma handleAddLog_keeps_ids_increasing_witness :
  NoDup (map id (logs (@handleAddLog host json_codec mardi
                         (cockpit [ran_5k] (str "Read"))))).
Proof.
  apply (@handleAddLog_keeps_ids_increasing host json_codec mardi
           (cockpit [ran_5k] (str "Read"))).
  - cbn. split; [intros e' []|exact I].
  - intros e [<-|[]]. vm_compute. reflexivity.
Defined.

Lemma same_millisecond_same_id_witness :
  ~ NoDup (map id (logs (@run host json_codec
      [TypeText (str "Ran 5k"); ClickAdd lundi; TypeText (str "Read"); ClickAdd lundi]
      (cockpit [] [])))).
Proof.
  apply (@same_millisecond_same_id host json_codec lundi (str "Ran 5k") (str "Read")
           (cockpit [] [])); vm_compute; discriminate.
Defined.

Lemma displayed_newest_first_witness :
  displayed (@handleAddLog host json_codec mardi (cockpit [ran_5k] (str "Read")))
  = mkLogEntry 1700086400000 (str "Mar 2") (str "Read") :: [ran_5k].
Proof.
  apply (proj1 (@displayed_newest_first host json_codec mardi
                  (cockpit [ran_5k] (str "Read")))).
  vm_compute. discriminate.
Defined.

(** The same clicks on the in-memory store and on the full one. *)
Lemma storage_never_shapes_the_log_witness :
  logs (@run host json_codec [TypeText (str "Read"); ClickAdd mardi]
          (cockpit [ran_5k] []))
  = logs (@run full_disk (json_refuse _) [TypeText (str "Read"); ClickAdd mardi]
            (@mkCockpit full_disk (@mkHook full_disk _ [ran_5k] (@mkWindow full_disk [] [])) [])).
Proof.
  apply (@storage_never_shapes_the_log host full_disk json_codec (json_refuse _));
    reflexivity.
Defined.

(* ------------------------------------------------------------------ *)
(** ** The date label *)
(* ------------------------------------------------------------------ *)

Lemma list_eqb_eq (a b : js_string) : list_eqb a b = true -> a = b.
Proof.
  revert b. induction a as [|c a IH]; intros [|d b] Heq; cbn in Heq;
    try discriminate; [reflexivity|].
  apply andb_true_iff in Heq. destruct Heq as [Hc Hrest].
  apply N.eqb_eq in Hc. rewrite Hc, (IH b Hrest). reflexivity.
Qed.

Lemma labels_check :
  forallb (fun names => forallb (label_ok 0 names) (seq 1 31)) weekdays_fr = true.
Proof. vm_compute. reflexivity. Qed.

(** X23: with ASCII case mapping, for each short weekday name of the
    fr-FR locale and each day of the month, the date of a new entry is the
    name without its period and with a capital, a space and the day. *)
Theorem formattedDate_labels (names : js_string * js_string) (day : nat)
    (now_ms : Z) :
  In names weekdays_fr -> (1 <= day <= 31)%nat ->
  @formattedDate host (mkClock now_ms (fst names) (Z.of_nat day))
  = snd names ++ str " " ++ number_toString (Z.of_nat day).
Proof.
  intros Hname Hday.
  pose proof (proj1 (forallb_forall _ _) labels_check names Hname) as Hrow.
  cbv beta in Hrow.
  pose proof (proj1 (forallb_forall _ _) Hrow day ltac:(apply in_seq; lia)) as Hcell.
  apply list_eqb_eq in Hcell. exact Hcell.
Qed.

(** The theorem on a Wednesday the 17th. *)
Lemma formattedDate_labels_witness :
  @formattedDate host (mkClock 1700000000000 (str "mer.") 17) = str "Mer 17".
Proof.
  apply (formattedDate_labels (str "mer.", str "Mer") 17 1700000000000).
  - cbn. tauto.
  - lia.
Defined.
